(** * Desktop duplication sessions of the Direct3D 11 back end

    A shallow embedding of [libobs-d3d11/d3d11-duplicator.cpp]: the
    per-monitor duplication session ([gs_duplicator]), its cached texture,
    the preview window presenter, the polling operation
    [gs_duplicator_update_frame] and the process-wide registry
    ([instances]) with its reference counts.

    Conventions.
    - C integers are [Z]; conversions between widths are written out
      ([to_uint32], [to_int32]).
    - A nullable pointer or COM pointer is an [option].
    - Every call into the capture provider, the GPU or the window system
      whose answer the code branches on takes that answer from an
      environment record; every such call the code makes for its effect is
      recorded, in program order, in a trace of [event]s.
    - Objects created with [new] carry a serial number taken from the device
      ([next_obj]); two objects are the same object exactly when their
      serials agree (a memory address may be reused after [delete], a serial
      is not). *)

From Stdlib Require Import ZArith List Bool Lia String.
From stdpp Require Import base option list gmap.
Import ListNotations.
Open Scope Z_scope.

(** ** Platform constants

    Values of the Windows SDK headers that the file reaches through
    [d3d11-subsystem.hpp] ([winerror.h], [dxgiformat.h]). An [HRESULT] is a
    signed 32-bit integer and fails exactly when it is negative. *)

Definition HRESULT := Z.
Definition DXGI_FORMAT := Z.
Definition handle := nat.

Definition to_uint32 (v : Z) : Z := v mod 2 ^ 32.
Definition to_int32 (v : Z) : Z := (v + 2 ^ 31) mod 2 ^ 32 - 2 ^ 31.

(** The conversion of an integer to [float] (binary32, round to nearest, ties
    to even), given by the value of the result. That value is again an
    integer: up to [2^24] in magnitude every integer is a [float], and above
    it the floats are spaced by a power of two. (Magnitudes beyond the largest
    [float], about [2^128], do not occur for the 32-bit integers converted
    here.) *)
Definition float_of_integer (v : Z) : Z :=
  let a := Z.abs v in
  if a <? 2 ^ 24 then v
  else
    let ulp := 2 ^ (Z.log2 a - 23) in
    let q := a / ulp in
    let r := a mod ulp in
    let up := if 2 * r <? ulp then false
              else if ulp <? 2 * r then true
              else Z.odd q in
    Z.sgn v * ((if up then q + 1 else q) * ulp).

Definition FAILED (hr : HRESULT) : bool := hr <? 0.
Definition SUCCEEDED (hr : HRESULT) : bool := 0 <=? hr.

Definition S_OK : HRESULT := 0.
Definition E_FAIL : HRESULT := to_int32 0x80004005.
Definition DXGI_ERROR_NOT_FOUND : HRESULT := to_int32 0x887A0002.
Definition DXGI_ERROR_ACCESS_LOST : HRESULT := to_int32 0x887A0026.
Definition DXGI_ERROR_WAIT_TIMEOUT : HRESULT := to_int32 0x887A0027.

Definition DXGI_FORMAT_R16G16B16A16_FLOAT : DXGI_FORMAT := 10.
Definition DXGI_FORMAT_R8G8B8A8_UNORM : DXGI_FORMAT := 28.
Definition DXGI_FORMAT_B8G8R8A8_UNORM : DXGI_FORMAT := 87.

(** ** The graphics headers

    [gs_color_format], [ConvertDXGITextureFormat] (d3d11-subsystem.hpp) and
    [gs_generalize_format] (graphics.h) live outside this file; the
    development is parametric in them. *)

Definition gs_color_format := Z.

Class GraphicsHeaders := {
  GS_BGRA : gs_color_format;
  ConvertDXGITextureFormat : DXGI_FORMAT -> gs_color_format;
  gs_generalize_format : gs_color_format -> gs_color_format
}.

Inductive gs_color_space := GS_CS_SRGB | GS_CS_SRGB_16F | GS_CS_709_SCRGB.

Inductive log_level := LOG_ERROR | LOG_DEBUG.

(** ** Data *)

Record RECT := {
  rect_left : Z; rect_top : Z; rect_right : Z; rect_bottom : Z
}.

(** [gs_rect]: x, y, cx, cy (all [int]). *)
Record gs_rect := { vp_x : Z; vp_y : Z; vp_cx : Z; vp_cy : Z }.

Record D3D11_TEXTURE2D_DESC := {
  Width : Z; Height : Z; Format : DXGI_FORMAT
}.

Record D3D11_BOX := {
  box_left : Z; box_top : Z; box_front : Z;
  box_right : Z; box_bottom : Z; box_back : Z
}.

(** A native frame: the [ID3D11Texture2D] the provider hands out. Its image is
    an opaque value. *)
Record ID3D11Texture2D := {
  GetDesc : D3D11_TEXTURE2D_DESC;
  frame_image : nat
}.

(** [gs_texture_2d], with the members this file reads. [image] is what the
    GPU resource currently holds ([None]: never written). *)
Module gs_texture_2d.
Record t := mk {
  id : nat;
  width : Z;
  height : Z;
  format : gs_color_format;
  texture : option handle;
  renderTarget0 : option handle;
  image : option nat
}.
Definition set_image (i : option nat) (x : t) : t :=
  mk (id x) (width x) (height x) (format x) (texture x) (renderTarget0 x) i.
End gs_texture_2d.

Record gs_swap_chain := {
  sc_id : nat;
  target : gs_texture_2d.t;
  hWaitable : option handle;
  swap : handle
}.

Definition set_target (t : gs_texture_2d.t) (sc : gs_swap_chain) : gs_swap_chain :=
  {| sc_id := sc_id sc; target := t; hWaitable := hWaitable sc; swap := swap sc |}.

(** The part of [gs_device] this file touches: the current swap chain
    (a pointer, here the swap chain's serial), the cached viewport, the
    render target bound on the immediate context, and the object counter. *)
Record gs_device := {
  curSwapChain : option nat;
  viewport : gs_rect;
  context_render_target : option handle;
  next_obj : nat
}.

Definition set_curSwapChain (v : option nat) (dev : gs_device) : gs_device :=
  {| curSwapChain := v; viewport := viewport dev;
     context_render_target := context_render_target dev; next_obj := next_obj dev |}.
Definition set_viewport (v : gs_rect) (dev : gs_device) : gs_device :=
  {| curSwapChain := curSwapChain dev; viewport := v;
     context_render_target := context_render_target dev; next_obj := next_obj dev |}.
Definition set_context_render_target (v : option handle) (dev : gs_device) : gs_device :=
  {| curSwapChain := curSwapChain dev; viewport := viewport dev;
     context_render_target := v; next_obj := next_obj dev |}.
Definition bump_next_obj (dev : gs_device) : gs_device :=
  {| curSwapChain := curSwapChain dev; viewport := viewport dev;
     context_render_target := context_render_target dev; next_obj := S (next_obj dev) |}.

(** [struct gs_duplicator]. [sdr_white_nits] is a [float] in the source; it
    only ever holds 80 or an integer converted to [float], so the field
    carries the value of that [float], which is an integer (see
    [float_of_integer]). [refs] is a [long] (32 bits on the target). *)
Record gs_duplicator := {
  duplicator : option handle;
  texture : option gs_texture_2d.t;
  hdr : bool;
  color_space : gs_color_space;
  sdr_white_nits : Z;
  idx : Z;
  refs : Z;
  updated : bool;
  displayWindow : option handle;
  displaySwapChain : option gs_swap_chain
}.

Definition set_texture (v : option gs_texture_2d.t) (d : gs_duplicator) : gs_duplicator :=
  {| duplicator := duplicator d; texture := v; hdr := hdr d;
     color_space := color_space d; sdr_white_nits := sdr_white_nits d;
     idx := idx d; refs := refs d; updated := updated d;
     displayWindow := displayWindow d; displaySwapChain := displaySwapChain d |}.
Definition set_color_space (v : gs_color_space) (d : gs_duplicator) : gs_duplicator :=
  {| duplicator := duplicator d; texture := texture d; hdr := hdr d;
     color_space := v; sdr_white_nits := sdr_white_nits d;
     idx := idx d; refs := refs d; updated := updated d;
     displayWindow := displayWindow d; displaySwapChain := displaySwapChain d |}.
Definition set_refs (v : Z) (d : gs_duplicator) : gs_duplicator :=
  {| duplicator := duplicator d; texture := texture d; hdr := hdr d;
     color_space := color_space d; sdr_white_nits := sdr_white_nits d;
     idx := idx d; refs := v; updated := updated d;
     displayWindow := displayWindow d; displaySwapChain := displaySwapChain d |}.
Definition set_updated (v : bool) (d : gs_duplicator) : gs_duplicator :=
  {| duplicator := duplicator d; texture := texture d; hdr := hdr d;
     color_space := color_space d; sdr_white_nits := sdr_white_nits d;
     idx := idx d; refs := refs d; updated := v;
     displayWindow := displayWindow d; displaySwapChain := displaySwapChain d |}.
Definition set_displaySwapChain (v : option gs_swap_chain) (d : gs_duplicator) : gs_duplicator :=
  {| duplicator := duplicator d; texture := texture d; hdr := hdr d;
     color_space := color_space d; sdr_white_nits := sdr_white_nits d;
     idx := idx d; refs := refs d; updated := updated d;
     displayWindow := displayWindow d; displaySwapChain := v |}.

(** ** Effects *)

Inductive HRError := mkHRError (str : string) (hr : HRESULT).

(** What C++ code can throw here: a string literal or an [HRError]. *)
Inductive exn := throw_str (msg : string) | throw_HRError (e : HRError).

Inductive event :=
| ev_blog (lvl : log_level) (msg : string)
(* capture provider *)
| ev_AcquireNextFrame (timeout : Z) (hr : HRESULT)
| ev_QueryInterface_Texture2D (hr : HRESULT)
| ev_ReleaseFrame
(* texture cache *)
| ev_delete_texture (id : nat)
| ev_gs_texture_create (w h : Z) (fmt : gs_color_format) (result : option nat)
| ev_CopyResource (dst : nat) (src : nat)
(* preview presenter *)
| ev_Resize (sc : nat) (cx cy : Z) (fmt : gs_color_format) (ok : bool)
| ev_ClearRenderTargetView (rtv : handle)
| ev_OMSetRenderTargets (rtv : handle)
| ev_CopySubresourceRegion (dst : option handle) (src : handle) (box : D3D11_BOX)
| ev_Present (sc : nat) (interval : Z)
(* teardown *)
| ev_delete_swap_chain (sc : nat)
| ev_DestroyWindow (hwnd : handle)
| ev_ShowWindow (hwnd : handle) (show : bool)
| ev_Release_duplication (h : handle).

#[global] Instance event_eq_dec : EqDecision event.
Proof. unfold EqDecision, Decision. repeat decide equality. Defined.

(** What the outside world answers during one call of
    [gs_duplicator_update_frame]. *)
Record update_env := {
  env_AcquireNextFrame : HRESULT;
  env_QueryInterface : HRESULT;
  env_frame : ID3D11Texture2D;
  env_texture_alloc : option handle;
  env_IsWindowVisible : bool;
  env_GetClientRect : RECT;
  env_Resize : gs_swap_chain -> Z -> Z -> gs_color_format ->
               option HRError * gs_texture_2d.t
}.

Inductive gs_zstencil_format := GS_ZS_NONE.

Record gs_init_data := {
  init_hwnd : handle;
  init_cx : Z;
  init_cy : Z;
  init_format : gs_color_format;
  init_zsformat : gs_zstencil_format;
  init_num_backbuffers : Z
}.

(** [gs_monitor_color_info], as far as [Start] reads it. *)
Record gs_monitor_color_info := { info_hdr : bool; info_sdr_white_nits : Z }.

(** What the outside world answers while a [gs_duplicator] is constructed:
    first the calls of [Start], then those of [CreateDisplayWindow]. *)
Record start_env := {
  env_EnumOutputs : HRESULT;
  env_QueryInterface_Output5 : HRESULT;
  env_DuplicateOutput1 : HRESULT;
  env_GetDesc : HRESULT;
  env_GetMonitorColorInfo : gs_monitor_color_info;
  env_QueryInterface_Output1 : HRESULT;
  env_DuplicateOutput : HRESULT;
  env_duplication : handle;
  env_RegisterClassW : bool;
  env_EnumOutputs_window : HRESULT;
  env_GetDesc_window : HRESULT;
  env_DesktopCoordinates : RECT;
  env_CreateWindowW : option handle;
  env_new_swap_chain : gs_init_data -> exn + (gs_texture_2d.t * option handle * handle)
}.

(** The process: the registry [instances] (monitor index to session pointer),
    the sessions the pointers refer to, the graphics device, and the
    function-local [static bool registered] of [RegisterDisplayWindowClass]. *)
Record world := {
  instances : gmap Z nat;
  heap : gmap nat gs_duplicator;
  device : gs_device;
  registered : bool
}.

Definition bind_exn {A B : Type} (c : exn + A) (k : A -> exn + B) : exn + B :=
  match c with
  | inl e => inl e
  | inr a => k a
  end.

Notation "'let!' x := c 'in' k" := (bind_exn c (fun x => k))
  (at level 10, x name, c at level 100, k at level 200).

Section Duplicator.
Context `{GraphicsHeaders}.

(** ** Texture cache *)

(** Modelled from the spec: [gs_texture_create] of the graphics API, which is
    not part of this file. It allocates a texture "sized to the incoming
    frame" in the requested format, or returns null when the GPU allocation
    fails. The source passes one mip level, no initial data and no flags, so
    the new texture has no render target and holds no image yet. *)
Definition gs_texture_create (dev : gs_device) (w h : Z) (fmt : gs_color_format)
    (alloc : option handle) : option gs_texture_2d.t * gs_device :=
  match alloc with
  | None => (None, dev)
  | Some res =>
      (Some (gs_texture_2d.mk (next_obj dev) w h fmt (Some res) None None),
       bump_next_obj dev)
  end.

(** The test of [copy_texture]:
    [!d->texture || width != desc.Width || height != desc.Height ||
     format != general_format]. *)
Definition needs_new_texture (d : gs_duplicator) (desc : D3D11_TEXTURE2D_DESC)
    (general_format : gs_color_format) : bool :=
  match texture d with
  | None => true
  | Some t =>
      negb (gs_texture_2d.width t =? Width desc)
      || negb (gs_texture_2d.height t =? Height desc)
      || negb (gs_texture_2d.format t =? general_format)
  end.

(** [d->hdr ? GS_CS_709_SCRGB
            : (desc.Format == DXGI_FORMAT_R16G16B16A16_FLOAT ? GS_CS_SRGB_16F
                                                             : GS_CS_SRGB)]. *)
Definition frame_color_space (is_hdr : bool) (fmt : DXGI_FORMAT) : gs_color_space :=
  if is_hdr then GS_CS_709_SCRGB
  else if fmt =? DXGI_FORMAT_R16G16B16A16_FLOAT then GS_CS_SRGB_16F
  else GS_CS_SRGB.

Definition delete_texture (t : option gs_texture_2d.t) : list event :=
  match t with
  | Some t => [ev_delete_texture (gs_texture_2d.id t)]
  | None => []
  end.

(** The first half of [copy_texture]: make the cached texture fit the frame. *)
Definition ensure_texture (e : update_env) (d : gs_duplicator) (dev : gs_device)
    (tex : ID3D11Texture2D) : gs_duplicator * gs_device * list event :=
  let desc := GetDesc tex in
  let format := ConvertDXGITextureFormat (Format desc) in
  let general_format := gs_generalize_format format in
  if needs_new_texture d desc general_format then
    let '(t', dev') :=
      gs_texture_create dev (Width desc) (Height desc) general_format
        (env_texture_alloc e) in
    (set_color_space (frame_color_space (hdr d) (Format desc)) (set_texture t' d),
     dev',
     delete_texture (texture d)
       ++ [ev_gs_texture_create (Width desc) (Height desc) general_format
             (gs_texture_2d.id <$> t')])
  else (d, dev, []).

(** [copy_texture]: [image] of the cached texture records the frame of the
    last [CopyResource] issued on it. *)
Definition copy_texture (e : update_env) (d : gs_duplicator) (dev : gs_device)
    (tex : ID3D11Texture2D) : gs_duplicator * gs_device * list event :=
  let '(d1, dev1, tr) := ensure_texture e d dev tex in
  match texture d1 with
  | Some t =>
      (set_texture (Some (gs_texture_2d.set_image (Some (frame_image tex)) t)) d1,
       dev1,
       tr ++ [ev_CopyResource (gs_texture_2d.id t) (frame_image tex)])
  | None => (d1, dev1, tr)
  end.

(** [copy_texture] over a sequence of captured frames, each with the answers
    the outside world gives while it is processed. *)
Fixpoint copy_frames (frames : list (update_env * ID3D11Texture2D))
    (d : gs_duplicator) (dev : gs_device) : gs_duplicator * gs_device * list event :=
  match frames with
  | [] => (d, dev, [])
  | (e, tex) :: rest =>
      let '(d1, dev1, tr1) := copy_texture e d dev tex in
      let '(d2, dev2, tr2) := copy_frames rest d1 dev1 in
      (d2, dev2, tr1 ++ tr2)
  end.

(** The frame has the size and the generalized format of the texture [t]. *)
Definition frame_fits (t : gs_texture_2d.t) (tex : ID3D11Texture2D) : Prop :=
  gs_texture_2d.width t = Width (GetDesc tex)
  /\ gs_texture_2d.height t = Height (GetDesc tex)
  /\ gs_texture_2d.format t
     = gs_generalize_format (ConvertDXGITextureFormat (Format (GetDesc tex))).

(** ** Preview presenter *)

(** The device state in which [PresentFrame] issues its drawing calls: its own
    swap chain is current and the viewport covers the whole target. *)
Definition present_device (sc : gs_swap_chain) (dev : gs_device) : gs_device :=
  set_viewport
    {| vp_x := 0; vp_y := 0;
       vp_cx := to_int32 (gs_texture_2d.width (target sc));
       vp_cy := to_int32 (gs_texture_2d.height (target sc)) |}
    (set_curSwapChain (Some (sc_id sc)) dev).

(** The calls [PresentFrame] makes once its swap chain is loaded: without a
    render target view it logs and stops, otherwise it clears, binds, copies
    the whole source texture into the back buffer and presents. *)
Definition present_commands (sc : gs_swap_chain) (tex : gs_texture_2d.t)
    (src : handle) (dev : gs_device) : gs_device * list event :=
  match gs_texture_2d.renderTarget0 (target sc) with
  | None => (dev, [ev_blog LOG_ERROR "Missing render target view"])
  | Some rtv =>
      let srcBox :=
        {| box_left := 0; box_top := 0; box_front := 0;
           box_right := gs_texture_2d.width tex;
           box_bottom := gs_texture_2d.height tex; box_back := 1 |} in
      let interval := match hWaitable sc with Some _ => 1 | None => 0 end in
      (set_context_render_target (Some rtv) dev,
       [ev_ClearRenderTargetView rtv;
        ev_OMSetRenderTargets rtv;
        ev_CopySubresourceRegion (gs_texture_2d.texture (target sc)) src srcBox;
        ev_Present (sc_id sc) interval])
  end.

(** [PresentFrame] from "Store the current swap chain" on. *)
Definition present_draw (sc : gs_swap_chain) (tex : gs_texture_2d.t) (src : handle)
    (dev : gs_device) : gs_device * list event :=
  let prevSwapChain := curSwapChain dev in
  let '(dev', tr) := present_commands sc tex src (present_device sc dev) in
  (set_curSwapChain prevSwapChain dev', tr).

Definition windowWidth (rc : RECT) : Z := to_uint32 (rect_right rc - rect_left rc).
Definition windowHeight (rc : RECT) : Z := to_uint32 (rect_bottom rc - rect_top rc).

(** "Resize the swap chain if necessary": [inl] carries the swap chain to draw
    on, [inr] the one left behind by a [Resize] that threw. *)
Definition present_resize (e : update_env) (sc : gs_swap_chain) (w h : Z)
    : (gs_swap_chain + gs_swap_chain) * list event :=
  if negb (w =? gs_texture_2d.width (target sc))
     || negb (h =? gs_texture_2d.height (target sc)) then
    match env_Resize e sc w h GS_BGRA with
    | (None, t') => (inl (set_target t' sc), [ev_Resize (sc_id sc) w h GS_BGRA true])
    | (Some _, t') =>
        (inr (set_target t' sc),
         [ev_Resize (sc_id sc) w h GS_BGRA false;
          ev_blog LOG_ERROR "Failed to resize swap chain"])
    end
  else (inl sc, []).

Definition PresentFrame (e : update_env) (d : gs_duplicator) (dev : gs_device)
    : gs_duplicator * gs_device * list event :=
  match displayWindow d, displaySwapChain d, texture d with
  | Some hwnd, Some sc, Some tex =>
      match gs_texture_2d.texture tex with
      | None => (d, dev, [])
      | Some src =>
          if negb (env_IsWindowVisible e) then (d, dev, [])
          else
            let w := windowWidth (env_GetClientRect e) in
            let h := windowHeight (env_GetClientRect e) in
            if (w =? 0) || (h =? 0) then (d, dev, [])
            else
              match present_resize e sc w h with
              | (inr sc', tr) => (set_displaySwapChain (Some sc') d, dev, tr)
              | (inl sc', tr) =>
                  let '(dev', tr') := present_draw sc' tex src dev in
                  (set_displaySwapChain (Some sc') d, dev', tr ++ tr')
              end
      end
  | _, _, _ => (d, dev, [])
  end.

(** The checks [PresentFrame] makes before it looks at the client area:
    window, swap chain, cached texture and its GPU resource exist and the
    window is visible. *)
Definition present_ready (e : update_env) (d : gs_duplicator)
    : option (gs_swap_chain * gs_texture_2d.t * handle) :=
  match displayWindow d, displaySwapChain d, texture d with
  | Some _, Some sc, Some tex =>
      match gs_texture_2d.texture tex with
      | Some src => if env_IsWindowVisible e then Some (sc, tex, src) else None
      | None => None
      end
  | _, _, _ => None
  end.

(** ** The polling operation *)

Definition preview_attached (d : gs_duplicator) : bool :=
  bool_decide (is_Some (displayWindow d)) && bool_decide (is_Some (displaySwapChain d)).

Definition gs_duplicator_update_frame (e : update_env) (d : gs_duplicator)
    (dev : gs_device) : bool * gs_duplicator * gs_device * list event :=
  match duplicator d with
  | None => (false, d, dev, [])
  | Some _ =>
      if preview_attached d && bool_decide (is_Some (texture d)) && updated d then
        let '(d', dev', tr) := PresentFrame e d dev in
        (true, d', dev', tr)
      else
        let hr := env_AcquireNextFrame e in
        let poll := ev_AcquireNextFrame 0 hr in
        if hr =? DXGI_ERROR_ACCESS_LOST then (false, d, dev, [poll])
        else if hr =? DXGI_ERROR_WAIT_TIMEOUT then (true, d, dev, [poll])
        else if FAILED hr then
          (true, d, dev,
           [poll; ev_blog LOG_ERROR "gs_duplicator_update_frame: Failed to update frame"])
        else
          let hr' := env_QueryInterface e in
          if FAILED hr' then
            (true, d, dev,
             [poll; ev_QueryInterface_Texture2D hr';
              ev_blog LOG_ERROR "gs_duplicator_update_frame: Failed to query ID3D11Texture2D";
              ev_ReleaseFrame])
          else
            let '(d1, dev1, tr1) := copy_texture e d dev (env_frame e) in
            let d2 := set_updated true d1 in
            let '(d3, dev3, tr3) :=
              if preview_attached d2 then PresentFrame e d2 dev1 else (d2, dev1, []) in
            (true, d3, dev3,
             [poll; ev_QueryInterface_Texture2D hr'] ++ tr1 ++ [ev_ReleaseFrame] ++ tr3)
  end.

Definition gs_duplicator_get_texture (d : gs_duplicator) : option gs_texture_2d.t :=
  texture d.

Definition gs_duplicator_get_color_space (d : gs_duplicator) : gs_color_space :=
  color_space d.

Definition gs_duplicator_get_sdr_white_level (d : gs_duplicator) : Z :=
  sdr_white_nits d.

Definition gs_duplicator_show_window (d : option gs_duplicator) (show : bool)
    : list event :=
  match d with
  | Some d =>
      match displayWindow d with
      | Some hwnd => [ev_ShowWindow hwnd show]
      | None => []
      end
  | None => []
  end.

(** ** Construction *)

Definition get_monitor (hr : HRESULT) : exn + bool :=
  if FAILED hr then
    if hr =? DXGI_ERROR_NOT_FOUND then inr false
    else inl (throw_HRError (mkHRError "Failed to get output" hr))
  else inr true.

(** [Start] up to the call of [CreateDisplayWindow]: the duplication handle
    and the display metadata ([hdr], [sdr_white_nits]). *)
Definition Start_duplication (e : start_env) : exn + (handle * bool * Z) :=
  let! found := get_monitor (env_EnumOutputs e) in
  if negb found then inl (throw_str "Invalid monitor index")
  else if SUCCEEDED (env_QueryInterface_Output5 e) then
    if FAILED (env_DuplicateOutput1 e) then
      inl (throw_HRError (mkHRError "Failed to DuplicateOutput1" (env_DuplicateOutput1 e)))
    else if SUCCEEDED (env_GetDesc e) then
      inr (env_duplication e,
           info_hdr (env_GetMonitorColorInfo e),
           float_of_integer (info_sdr_white_nits (env_GetMonitorColorInfo e)))
    else inr (env_duplication e, false, 80)
  else if FAILED (env_QueryInterface_Output1 e) then
    inl (throw_HRError (mkHRError "Failed to query IDXGIOutput1" (env_QueryInterface_Output1 e)))
  else if FAILED (env_DuplicateOutput e) then
    inl (throw_HRError (mkHRError "Failed to DuplicateOutput" (env_DuplicateOutput e)))
  else inr (env_duplication e, false, 80).

Definition RegisterDisplayWindowClass (e : start_env) (reg : bool)
    : bool * bool * list event :=
  if reg then (true, reg, [])
  else if negb (env_RegisterClassW e) then
    (false, reg, [ev_blog LOG_ERROR "Failed to register display window class"])
  else (true, true, []).

(** [CreateDisplayWindow]: the window and swap chain of the preview (both null
    when the preview could not be set up), the device and the [registered]
    flag afterwards. Only [get_monitor] and a swap chain constructor that
    throws something else than an [HRError] let an exception escape. *)
Definition CreateDisplayWindow (e : start_env) (dev : gs_device) (reg : bool)
    : (exn + (option handle * option gs_swap_chain)) * gs_device * bool * list event :=
  let '(ok, reg', tr) := RegisterDisplayWindowClass e reg in
  if negb ok then (inr (None, None), dev, reg', tr)
  else
    match get_monitor (env_EnumOutputs_window e) with
    | inl ex => (inl ex, dev, reg', tr)
    | inr false => (inr (None, None), dev, reg', tr)
    | inr true =>
        if FAILED (env_GetDesc_window e) then (inr (None, None), dev, reg', tr)
        else
          let monitorRect := env_DesktopCoordinates e in
          let width := to_int32 (rect_right monitorRect - rect_left monitorRect) in
          let height := to_int32 (rect_bottom monitorRect - rect_top monitorRect) in
          match env_CreateWindowW e with
          | None =>
              (inr (None, None), dev, reg',
               tr ++ [ev_blog LOG_ERROR "Failed to create display window"])
          | Some hwnd =>
              let initData :=
                {| init_hwnd := hwnd;
                   init_cx := to_uint32 (width ÷ 2);
                   init_cy := to_uint32 (height ÷ 2);
                   init_format := GS_BGRA;
                   init_zsformat := GS_ZS_NONE;
                   init_num_backbuffers := 1 |} in
              match env_new_swap_chain e initData with
              | inr (tgt, waitable, sw) =>
                  (inr (Some hwnd,
                        Some {| sc_id := next_obj dev; target := tgt;
                                hWaitable := waitable; swap := sw |}),
                   bump_next_obj dev, reg',
                   tr ++ [ev_ShowWindow hwnd true])
              | inl (throw_HRError _) =>
                  (inr (None, None), dev, reg',
                   tr ++ [ev_blog LOG_ERROR "Failed to create swap chain";
                          ev_DestroyWindow hwnd])
              | inl ex => (inl ex, dev, reg', tr)
              end
          end
    end.

(** [new gs_duplicator(device, monitor_idx)]: the member initialisers, then
    [Start]. [color_space] starts from the default in the class definition.
    When [CreateDisplayWindow] throws, the duplication is already set up, and
    unwinding the constructor releases it (the member is a [ComPtr]); a window
    created by then is a plain handle and stays. *)
Definition gs_duplicator_new (e : start_env) (dev : gs_device) (reg : bool)
    (monitor_idx : Z) : (exn + gs_duplicator) * gs_device * bool * list event :=
  match Start_duplication e with
  | inl ex => (inl ex, dev, reg, [])
  | inr (dup, is_hdr, nits) =>
      match CreateDisplayWindow e dev reg with
      | (inl ex, dev', reg', tr) =>
          (inl ex, dev', reg', tr ++ [ev_Release_duplication dup])
      | (inr (hwnd, sc), dev', reg', tr) =>
          (inr {| duplicator := Some dup; texture := None; hdr := is_hdr;
                  color_space := GS_CS_SRGB; sdr_white_nits := nits;
                  idx := monitor_idx; refs := 1; updated := false;
                  displayWindow := hwnd; displaySwapChain := sc |},
           dev', reg', tr)
      end
  end.

(** [~gs_duplicator]: the destructor body, then the members (the
    duplication handle is a [ComPtr]). *)
Definition gs_duplicator_delete (d : gs_duplicator) : list event :=
  delete_texture (texture d)
  ++ match displaySwapChain d with
     | Some sc => [ev_delete_swap_chain (sc_id sc)]
     | None => []
     end
  ++ match displayWindow d with
     | Some hwnd => [ev_DestroyWindow hwnd]
     | None => []
     end
  ++ match duplicator d with
     | Some h => [ev_Release_duplication h]
     | None => []
     end.

(** ** The registry *)

Definition set_heap (h : gmap nat gs_duplicator) (w : world) : world :=
  {| instances := instances w; heap := h; device := device w;
     registered := registered w |}.

Definition reset_duplicators (w : world) : world :=
  set_heap
    (map_fold (fun _ p h => alter (set_updated false) p h) (heap w) (instances w))
    w.

(** [device_duplicator_create]. A session is allocated at the device's next
    serial; a pointer of the registry is only ever dereferenced while its
    session is alive. *)
Definition device_duplicator_create (e : start_env) (monitor_idx : Z) (w : world)
    : option nat * world * list event :=
  match instances w !! monitor_idx with
  | Some p =>
      (Some p,
       set_heap (alter (fun d => set_refs (to_int32 (refs d + 1)) d) p (heap w)) w,
       [])
  | None =>
      let p := next_obj (device w) in
      match gs_duplicator_new e (bump_next_obj (device w)) (registered w) monitor_idx with
      | (inr d, dev', reg', tr) =>
          (Some p,
           {| instances := <[monitor_idx := p]> (instances w);
              heap := <[p := d]> (heap w);
              device := dev'; registered := reg' |},
           tr)
      | (inl (throw_str error), dev', reg', tr) =>
          (None,
           {| instances := instances w; heap := heap w;
              device := dev'; registered := reg' |},
           tr ++ [ev_blog LOG_DEBUG ("device_duplicator_create: " ++ error)])
      | (inl (throw_HRError (mkHRError str _)), dev', reg', tr) =>
          (None,
           {| instances := instances w; heap := heap w;
              device := dev'; registered := reg' |},
           tr ++ [ev_blog LOG_DEBUG ("device_duplicator_create: " ++ str)])
      end
  end.

(** [gs_duplicator_destroy]. Calling it on a pointer whose session is gone
    reads freed memory in the source and has no defined behaviour; the model
    leaves the world alone there, and what is proved of this function is
    proved for the pointer of a live session. *)
Definition gs_duplicator_destroy (p : nat) (w : world) : world * list event :=
  match heap w !! p with
  | None => (w, [])
  | Some d =>
      let r := to_int32 (refs d - 1) in
      if r =? 0 then
        ({| instances := delete (idx d) (instances w);
            heap := delete p (heap w);
            device := device w; registered := registered w |},
         gs_duplicator_delete (set_refs r d))
      else (set_heap (<[p := set_refs r d]> (heap w)) w, [])
  end.

(** [gs_duplicator_update_frame] through a session pointer. *)
Definition update_frame_at (e : update_env) (p : nat) (w : world)
    : option bool * world * list event :=
  match heap w !! p with
  | None => (None, w, [])
  | Some d =>
      let '(r, d', dev', tr) := gs_duplicator_update_frame e d (device w) in
      (Some r,
       {| instances := instances w; heap := <[p := d']> (heap w);
          device := dev'; registered := registered w |},
       tr)
  end.

(** [n] further calls of [device_duplicator_create] for the same monitor. *)
Fixpoint create_again (e : start_env) (monitor_idx : Z) (n : nat) (w : world)
    : list (option nat) * world :=
  match n with
  | O => ([], w)
  | S n' =>
      let '(r, w1, _) := device_duplicator_create e monitor_idx w in
      let '(rs, w2) := create_again e monitor_idx n' w1 in
      (r :: rs, w2)
  end.

(** [n] calls of [gs_duplicator_destroy] on the same pointer. *)
Fixpoint destroy_times (p : nat) (n : nat) (w : world) : world * list event :=
  match n with
  | O => (w, [])
  | S n' =>
      let '(w1, tr1) := gs_duplicator_destroy p w in
      let '(w2, tr2) := destroy_times p n' w1 in
      (w2, tr1 ++ tr2)
  end.

End Duplicator.

(** ** Reading traces *)

(** The events of the capture provider. *)
Definition is_provider_event (ev : event) : bool :=
  match ev with
  | ev_AcquireNextFrame _ _ | ev_QueryInterface_Texture2D _ | ev_ReleaseFrame => true
  | _ => false
  end.

(** The answer of the provider to the poll of this call, if it was polled. *)
Fixpoint polled (tr : list event) : option HRESULT :=
  match tr with
  | [] => None
  | ev_AcquireNextFrame _ hr :: _ => Some hr
  | _ :: tr' => polled tr'
  end.

(** How often the provider's frame was released. *)
Definition releases (tr : list event) : nat :=
  length (filter (fun ev => ev = ev_ReleaseFrame) tr).

(** The poll handed out a frame: [AcquireNextFrame] returned a success code. *)
Definition frame_acquired (tr : list event) : bool :=
  match polled tr with
  | Some hr => SUCCEEDED hr
  | None => false
  end.

(** The four components of what [gs_duplicator_update_frame] returns. *)
Definition returned (x : bool * gs_duplicator * gs_device * list event) : bool := x.1.1.1.
Definition session_after (x : bool * gs_duplicator * gs_device * list event) : gs_duplicator := x.1.1.2.
Definition device_after (x : bool * gs_duplicator * gs_device * list event) : gs_device := x.1.2.
Definition trace_of (x : bool * gs_duplicator * gs_device * list event) : list event := x.2.

(** The constructor of a session threw. *)
Definition construction_fails `{GraphicsHeaders} (e : start_env) (monitor_idx : Z)
    (w : world) : Prop :=
  exists ex,
    (gs_duplicator_new e (bump_next_obj (device w)) (registered w) monitor_idx).1.1.1
    = inl ex.

(** The registry maps [monitor_idx] to the pointer [p], and [p] refers to the
    live session [d0] with its reference count at [r]. *)
Definition registered_with (w : world) (monitor_idx : Z) (p : nat)
    (d0 : gs_duplicator) (r : Z) : Prop :=
  instances w !! monitor_idx = Some p
  /\ heap w !! p = Some (set_refs r d0)
  /\ idx d0 = monitor_idx.

(** ** Concrete inputs

    An instance of the graphics headers for running the model: the color
    formats are numbered as upstream numbers them ([GS_RGBA] 3, [GS_BGRX] 4,
    [GS_BGRA] 5, [GS_RGBA16F] 9, [GS_RGBA_UNORM] 19, [GS_BGRX_UNORM] 20,
    [GS_BGRA_UNORM] 21, [GS_UNKNOWN] 0), restricted to the formats a
    duplication can deliver. *)
Definition sample_headers : GraphicsHeaders := {|
  GS_BGRA := 5;
  ConvertDXGITextureFormat f :=
    if f =? DXGI_FORMAT_R16G16B16A16_FLOAT then 9
    else if f =? DXGI_FORMAT_R8G8B8A8_UNORM then 19
    else if f =? DXGI_FORMAT_B8G8R8A8_UNORM then 21
    else 0;
  gs_generalize_format f :=
    if f =? 19 then 3 else if f =? 20 then 4 else if f =? 21 then 5 else f
|}.

(** A 1920x1080 BGRA texture holding frame 0. *)
Definition sample_texture : gs_texture_2d.t :=
  gs_texture_2d.mk 3 1920 1080 5 (Some 30%nat) None (Some 0%nat).

(** The preview's swap chain, 960x540 with a render target view. *)
Definition sample_swap_chain : gs_swap_chain := {|
  sc_id := 2;
  target := gs_texture_2d.mk 2 960 540 5 (Some 20%nat) (Some 21%nat) None;
  hWaitable := None;
  swap := 22%nat
|}.

(** A running session with preview, cached texture and the flag set. *)
Definition sample_session : gs_duplicator := {|
  duplicator := Some 10%nat;
  texture := Some sample_texture;
  hdr := false;
  color_space := GS_CS_SRGB;
  sdr_white_nits := 80;
  idx := 0;
  refs := 1;
  updated := true;
  displayWindow := Some 11%nat;
  displaySwapChain := Some sample_swap_chain
|}.

(** A device in the middle of other rendering: the main swap chain (1) is
    current, with its own viewport and render target. *)
Definition sample_device : gs_device := {|
  curSwapChain := Some 1%nat;
  viewport := {| vp_x := 10; vp_y := 20; vp_cx := 300; vp_cy := 200 |};
  context_render_target := Some 5%nat;
  next_obj := 4
|}.

Definition sample_frame (w h : Z) (fmt : DXGI_FORMAT) (img : nat) : ID3D11Texture2D :=
  {| GetDesc := {| Width := w; Height := h; Format := fmt |}; frame_image := img |}.

(** The provider delivers [frame]; the GPU answers a texture allocation with
    [alloc]; the preview window is visible with a 960x540 client area. *)
Definition sample_update_env (frame : ID3D11Texture2D) (alloc : option handle)
    : update_env := {|
  env_AcquireNextFrame := S_OK;
  env_QueryInterface := S_OK;
  env_frame := frame;
  env_texture_alloc := alloc;
  env_IsWindowVisible := true;
  env_GetClientRect :=
    {| rect_left := 0; rect_top := 0; rect_right := 960; rect_bottom := 540 |};
  env_Resize := fun sc w h fmt =>
    (None,
     gs_texture_2d.mk (gs_texture_2d.id (target sc)) w h fmt
       (gs_texture_2d.texture (target sc))
       (gs_texture_2d.renderTarget0 (target sc)) None)
|}.

(** Construction on an adapter whose outputs answer [enum]; everything else
    succeeds and the display is not HDR. *)
Definition sample_start_env (enum : HRESULT) : start_env := {|
  env_EnumOutputs := enum;
  env_QueryInterface_Output5 := S_OK;
  env_DuplicateOutput1 := S_OK;
  env_GetDesc := S_OK;
  env_GetMonitorColorInfo := {| info_hdr := false; info_sdr_white_nits := 80 |};
  env_QueryInterface_Output1 := S_OK;
  env_DuplicateOutput := S_OK;
  env_duplication := 10%nat;
  env_RegisterClassW := true;
  env_EnumOutputs_window := enum;
  env_GetDesc_window := S_OK;
  env_DesktopCoordinates :=
    {| rect_left := 0; rect_top := 0; rect_right := 1920; rect_bottom := 1080 |};
  env_CreateWindowW := Some 11%nat;
  env_new_swap_chain := fun init =>
    inr (gs_texture_2d.mk 0 (init_cx init) (init_cy init) (init_format init)
           (Some 20%nat) (Some 21%nat) None,
         None, 22%nat)
|}.

(** The provider has no new frame: the poll times out. *)
Definition sample_idle_env : update_env := {|
  env_AcquireNextFrame := DXGI_ERROR_WAIT_TIMEOUT;
  env_QueryInterface := S_OK;
  env_frame := sample_frame 1920 1080 DXGI_FORMAT_B8G8R8A8_UNORM 8;
  env_texture_alloc := None;
  env_IsWindowVisible := true;
  env_GetClientRect :=
    {| rect_left := 0; rect_top := 0; rect_right := 960; rect_bottom := 540 |};
  env_Resize := fun sc w h fmt => (None, target sc)
|}.

(** A process in which monitor 0 is being captured by [sample_session]. *)
Definition sample_capturing_world : world := {|
  instances := {[ 0 := 2%nat ]};
  heap := {[ 2%nat := sample_session ]};
  device := sample_device;
  registered := true
|}.

(** A process that has not created any session yet. *)
Definition sample_world : world := {|
  instances := ∅;
  heap := ∅;
  device := {| curSwapChain := Some 1%nat;
               viewport := {| vp_x := 0; vp_y := 0; vp_cx := 1920; vp_cy := 1080 |};
               context_render_target := None;
               next_obj := 2 |};
  registered := false
|}.

(** The session the constructor builds for monitor 0 in [sample_world]. *)
Definition sample_new_session : gs_duplicator :=
  Eval vm_compute in
    match
      (gs_duplicator_new (H:=sample_headers) (sample_start_env S_OK)
         (bump_next_obj (device sample_world)) (registered sample_world) 0).1.1.1
    with
    | inr d => d
    | inl _ => sample_session
    end.

(** ** Monitor queries

    [device_get_duplicator_monitor_info] and
    [device_duplicator_get_monitor_index] ask the adapter about its outputs
    and touch no session. [DXGI_MODE_ROTATION] is the Windows SDK enumeration
    (unspecified 0, identity 1, rotate90 2, rotate180 3, rotate270 4). *)

Definition DXGI_MODE_ROTATION_UNSPECIFIED : Z := 0.
Definition DXGI_MODE_ROTATION_IDENTITY : Z := 1.
Definition DXGI_MODE_ROTATION_ROTATE90 : Z := 2.
Definition DXGI_MODE_ROTATION_ROTATE180 : Z := 3.
Definition DXGI_MODE_ROTATION_ROTATE270 : Z := 4.

(** [DXGI_OUTPUT_DESC], with the members this file reads. *)
Record DXGI_OUTPUT_DESC := {
  DesktopCoordinates : RECT;
  Rotation : Z;
  Monitor : handle
}.

(** [struct gs_monitor_info]: an [int] and four [long]s. *)
Record gs_monitor_info := {
  rotation_degrees : Z;
  info_x : Z;
  info_y : Z;
  info_cx : Z;
  info_cy : Z
}.

(** The [try] block of [device_get_duplicator_monitor_info]: [inr false] is
    its [return false], [inr true] falls through to the code behind it. *)
Definition monitor_info_query (hr_enum hr_desc : HRESULT) : exn + bool :=
  let! found := get_monitor hr_enum in
  if negb found then inr false
  else if FAILED hr_desc then inl (throw_HRError (mkHRError "GetDesc failed" hr_desc))
  else inr true.

(** [device_get_duplicator_monitor_info]. [info] is the caller's structure
    before the call; the [switch] has no default, so a rotation outside the
    enumeration leaves [rotation_degrees] as the caller had it. Only an
    [HRError] is caught. *)
Definition device_get_duplicator_monitor_info (hr_enum hr_desc : HRESULT)
    (desc : DXGI_OUTPUT_DESC) (info : gs_monitor_info)
    : (exn + bool) * gs_monitor_info * list event :=
  match monitor_info_query hr_enum hr_desc with
  | inl (throw_HRError (mkHRError str _)) =>
      (inr false, info,
       [ev_blog LOG_ERROR ("device_get_duplicator_monitor_info: " ++ str)])
  | inl ex => (inl ex, info, [])
  | inr false => (inr false, info, [])
  | inr true =>
      let degrees :=
        if (Rotation desc =? DXGI_MODE_ROTATION_UNSPECIFIED)
           || (Rotation desc =? DXGI_MODE_ROTATION_IDENTITY) then 0
        else if Rotation desc =? DXGI_MODE_ROTATION_ROTATE90 then 90
        else if Rotation desc =? DXGI_MODE_ROTATION_ROTATE180 then 180
        else if Rotation desc =? DXGI_MODE_ROTATION_ROTATE270 then 270
        else rotation_degrees info in
      let x := rect_left (DesktopCoordinates desc) in
      let y := rect_top (DesktopCoordinates desc) in
      (inr true,
       {| rotation_degrees := degrees;
          info_x := x;
          info_y := y;
          info_cx := to_int32 (rect_right (DesktopCoordinates desc) - x);
          info_cy := to_int32 (rect_bottom (DesktopCoordinates desc) - y) |},
       [])
  end.

(** What the adapter answers for one output index: the result of
    [EnumOutputs], and for an output it hands out the result of [GetDesc] and
    the monitor of the description. *)
Record output_answer := {
  out_EnumOutputs : HRESULT;
  out_GetDesc : HRESULT;
  out_Monitor : handle
}.

(** The effects of [device_duplicator_get_monitor_index]. *)
Inductive index_event :=
| ix_blog (msg : string)
| ix_Release (output : Z).

(** One round of the loop for the output index [output]: the value of [index]
    after it and its effects. *)
Definition monitor_index_step (a : output_answer) (monitor : handle) (output : Z)
    : Z * list index_event :=
  if SUCCEEDED (out_EnumOutputs a) then
    if SUCCEEDED (out_GetDesc a) then
      (if bool_decide (out_Monitor a = monitor) then to_int32 output else -1,
       [ix_Release output])
    else
      (-1, [ix_blog "device_duplicator_get_monitor_index: Failed to get desc";
            ix_Release output])
  else if out_EnumOutputs a =? DXGI_ERROR_NOT_FOUND then
    (-1, [ix_blog "device_duplicator_get_monitor_index: Failed to get output"])
  else (-1, []).

(** The loop [while (index == -1)] from the output index [output] on
    ([UINT], incremented with wrap-around). [None]: more than [fuel] rounds. *)
Fixpoint monitor_index_loop (adapter : Z -> output_answer) (monitor : handle)
    (fuel : nat) (output : Z) : option (Z * list index_event) :=
  match fuel with
  | O => None
  | S fuel' =>
      if out_EnumOutputs (adapter output) =? DXGI_ERROR_NOT_FOUND then Some (-1, [])
      else
        let '(index, evs) := monitor_index_step (adapter output) monitor output in
        if index =? -1 then
          match monitor_index_loop adapter monitor fuel' (to_uint32 (output + 1)) with
          | Some (r, evs') => Some (r, evs ++ evs')
          | None => None
          end
        else Some (index, evs)
  end.

Definition device_duplicator_get_monitor_index (adapter : Z -> output_answer)
    (monitor : handle) (fuel : nat) : option (Z * list index_event) :=
  monitor_index_loop adapter monitor fuel 0.

(** The adapter hands out output [i], its description can be read and names
    the monitor looked for. *)
Definition output_matches (adapter : Z -> output_answer) (monitor : handle) (i : Z)
    : bool :=
  SUCCEEDED (out_EnumOutputs (adapter i))
  && SUCCEEDED (out_GetDesc (adapter i))
  && bool_decide (out_Monitor (adapter i) = monitor).

(** Construction on a system where the swap chain of the preview cannot be
    created. *)
Definition sample_start_env_no_swap_chain : start_env := {|
  env_EnumOutputs := S_OK;
  env_QueryInterface_Output5 := S_OK;
  env_DuplicateOutput1 := S_OK;
  env_GetDesc := S_OK;
  env_GetMonitorColorInfo := {| info_hdr := true; info_sdr_white_nits := 240 |};
  env_QueryInterface_Output1 := S_OK;
  env_DuplicateOutput := S_OK;
  env_duplication := 10%nat;
  env_RegisterClassW := true;
  env_EnumOutputs_window := S_OK;
  env_GetDesc_window := S_OK;
  env_DesktopCoordinates :=
    {| rect_left := 0; rect_top := 0; rect_right := 1920; rect_bottom := 1080 |};
  env_CreateWindowW := Some 11%nat;
  env_new_swap_chain := fun init =>
    inl (throw_HRError (mkHRError "Failed to create swap chain" E_FAIL))
|}.

(** The one thing the color space needs of the format tables: no other native
    format has the generalized format of the half-float one. *)
Definition half_float_is_distinct `{GraphicsHeaders} : Prop :=
  forall f,
    gs_generalize_format (ConvertDXGITextureFormat f)
    = gs_generalize_format (ConvertDXGITextureFormat DXGI_FORMAT_R16G16B16A16_FLOAT) ->
    f = DXGI_FORMAT_R16G16B16A16_FLOAT.

(** The color space of the session is the one that goes with its cached
    texture. *)
Definition color_space_fits `{GraphicsHeaders} (d : gs_duplicator) : Prop :=
  forall t, texture d = Some t ->
    color_space d
    = if hdr d then GS_CS_709_SCRGB
      else if gs_texture_2d.format t
              =? gs_generalize_format
                   (ConvertDXGITextureFormat DXGI_FORMAT_R16G16B16A16_FLOAT)
           then GS_CS_SRGB_16F
           else GS_CS_SRGB.

(** The sessions this file produces: constructed, then changed by updates, by
    the reference counting of the registry and by the freshness reset. *)
Inductive reachable `{GraphicsHeaders} : gs_duplicator -> Prop :=
| reach_new e dev reg monitor_idx d dev' reg' tr :
    gs_duplicator_new e dev reg monitor_idx = (inr d, dev', reg', tr) ->
    reachable d
| reach_update e d dev :
    reachable d ->
    reachable (session_after (gs_duplicator_update_frame e d dev))
| reach_refs r d :
    reachable d -> reachable (set_refs r d)
| reach_reset d :
    reachable d -> reachable (set_updated false d).

(** The outputs released in a trace, in order. *)
Definition released_outputs (evs : list index_event) : list Z :=
  omap (fun ev => match ev with ix_Release i => Some i | ix_blog _ => None end) evs.

(** The adapter hands out output [i]. *)
Definition handed_out (adapter : Z -> output_answer) (i : Z) : bool :=
  SUCCEEDED (out_EnumOutputs (adapter i)).

(** The [initData] [CreateDisplayWindow] passes to the swap chain constructor
    for the window [hwnd]: half the output's size, BGRA, no depth buffer, one
    back buffer. *)
Definition display_init_data `{GraphicsHeaders} (e : start_env) (hwnd : handle)
    : gs_init_data :=
  let monitorRect := env_DesktopCoordinates e in
  let width := to_int32 (rect_right monitorRect - rect_left monitorRect) in
  let height := to_int32 (rect_bottom monitorRect - rect_top monitorRect) in
  {| init_hwnd := hwnd;
     init_cx := to_uint32 (width ÷ 2);
     init_cy := to_uint32 (height ÷ 2);
     init_format := GS_BGRA;
     init_zsformat := GS_ZS_NONE;
     init_num_backbuffers := 1 |}.

(** ** Well-formed processes

    The registry and the live sessions correspond one to one: an entry points
    to a live session created for that monitor; a live session is the one its
    monitor's entry points to, holds between 1 and [2^31 - 1] references, was
    allocated before the device's next serial, and so was its cached
    texture. *)
Definition registry_wf (w : world) : Prop :=
  (forall i p, instances w !! i = Some p ->
     exists d, heap w !! p = Some d /\ idx d = i)
  /\ (forall p d, heap w !! p = Some d ->
        instances w !! idx d = Some p
        /\ 1 <= refs d < 2 ^ 31
        /\ (p < next_obj (device w))%nat
        /\ (forall t, texture d = Some t ->
              (gs_texture_2d.id t < next_obj (device w))%nat)).

(** What a session keeps for life: its capture handle, display metadata,
    monitor, reference count, window, and the identity of its swap chain. *)
Definition same_identity (d d' : gs_duplicator) : Prop :=
  duplicator d' = duplicator d
  /\ hdr d' = hdr d
  /\ sdr_white_nits d' = sdr_white_nits d
  /\ idx d' = idx d
  /\ refs d' = refs d
  /\ displayWindow d' = displayWindow d
  /\ sc_id <$> displaySwapChain d' = sc_id <$> displaySwapChain d.

Definition is_poll (ev : event) : bool :=
  match ev with
  | ev_AcquireNextFrame _ _ => true
  | _ => false
  end.

(** How often the provider was polled. *)
Definition polls (tr : list event) : nat :=
  length (filter (fun ev => is_poll ev = true) tr).

(** Every poll in the trace returns at once (timeout zero). *)
Definition nonblocking (tr : list event) : Prop :=
  Forall (fun ev => match ev with
                    | ev_AcquireNextFrame timeout _ => timeout = 0
                    | _ => True
                    end) tr.

(** An adapter with three outputs on the monitors 100, 101 and 102; the
    description of output 1 cannot be read. *)
Definition sample_adapter (i : Z) : output_answer :=
  if i =? 0 then {| out_EnumOutputs := S_OK; out_GetDesc := S_OK; out_Monitor := 100%nat |}
  else if i =? 1 then {| out_EnumOutputs := S_OK; out_GetDesc := E_FAIL; out_Monitor := 101%nat |}
  else if i =? 2 then {| out_EnumOutputs := S_OK; out_GetDesc := S_OK; out_Monitor := 102%nat |}
  else {| out_EnumOutputs := DXGI_ERROR_NOT_FOUND; out_GetDesc := E_FAIL; out_Monitor := 0%nat |}.

(** A 2560x1440 output to the right of a 1920 wide one, rotated by 90 degrees. *)
Definition sample_output_desc : DXGI_OUTPUT_DESC := {|
  DesktopCoordinates :=
    {| rect_left := 1920; rect_top := 0; rect_right := 4480; rect_bottom := 1440 |};
  Rotation := DXGI_MODE_ROTATION_ROTATE90;
  Monitor := 101%nat
|}.

Definition sample_monitor_info : gs_monitor_info := {|
  rotation_degrees := 0; info_x := 0; info_y := 0; info_cx := 0; info_cy := 0
|}.

Section Properties.
Context `{GraphicsHeaders}.

Lemma present_draw_no_provider sc tex src dev :
  Forall (fun ev => is_provider_event ev = false) (present_draw sc tex src dev).2.
Proof.
  unfold present_draw, present_commands.
  destruct (gs_texture_2d.renderTarget0 (target sc)); simpl; repeat constructor.
Qed.

Lemma present_resize_no_provider e sc w h :
  Forall (fun ev => is_provider_event ev = false) (present_resize e sc w h).2.
Proof.
  unfold present_resize.
  destruct (_ || _); [destruct (env_Resize e sc w h GS_BGRA) as [[?|] ?]|];
    simpl; repeat constructor.
Qed.

Lemma PresentFrame_no_provider e d dev :
  Forall (fun ev => is_provider_event ev = false) (PresentFrame e d dev).2.
Proof.
  unfold PresentFrame.
  destruct (displayWindow d), (displaySwapChain d) as [sc|], (texture d) as [tex|];
    simpl; try constructor.
  destruct (gs_texture_2d.texture tex) as [src|]; simpl; try constructor.
  destruct (negb (env_IsWindowVisible e)); simpl; try constructor.
  destruct (_ || _); simpl; try constructor.
  pose proof (present_resize_no_provider e sc
    (windowWidth (env_GetClientRect e)) (windowHeight (env_GetClientRect e))) as Hr.
  destruct (present_resize _ _ _ _) as [[sc'|sc'] tr]; simpl in *; [|done].
  pose proof (present_draw_no_provider sc' tex src dev) as Hd.
  destruct (present_draw _ _ _ _) as [dev' tr']; simpl in *.
  by apply Forall_app.
Qed.

Lemma copy_texture_no_provider e d dev tex :
  Forall (fun ev => is_provider_event ev = false) (copy_texture e d dev tex).2.
Proof.
  unfold copy_texture, ensure_texture, gs_texture_create, delete_texture.
  repeat case_match; simplify_eq/=; repeat (apply Forall_app; split); repeat constructor.
Qed.

Lemma polled_no_provider tr :
  Forall (fun ev => is_provider_event ev = false) tr -> polled tr = None.
Proof.
  induction 1 as [|ev tr Hev _ IH]; [done|].
  destruct ev; simpl in *; congruence.
Qed.

Lemma releases_no_provider tr :
  Forall (fun ev => is_provider_event ev = false) tr -> releases tr = 0%nat.
Proof.
  unfold releases. induction 1 as [|ev tr Hev _ IH]; [done|].
  rewrite filter_cons. case_decide as Hrel; [by subst ev|done].
Qed.

Lemma releases_app tr1 tr2 : releases (tr1 ++ tr2) = (releases tr1 + releases tr2)%nat.
Proof. unfold releases. by rewrite filter_app, length_app. Qed.

Lemma ACCESS_LOST_FAILED : FAILED DXGI_ERROR_ACCESS_LOST = true.
Proof. reflexivity. Qed.

Lemma WAIT_TIMEOUT_FAILED : FAILED DXGI_ERROR_WAIT_TIMEOUT = true.
Proof. reflexivity. Qed.

Lemma SUCCEEDED_FAILED hr : SUCCEEDED hr = negb (FAILED hr).
Proof. unfold SUCCEEDED, FAILED. destruct (Z.ltb_spec hr 0), (Z.leb_spec 0 hr); done || lia. Qed.

(** The shape of a call that got past the two early exits and polled. *)
Lemma update_frame_polling e d dev h :
  duplicator d = Some h ->
  preview_attached d && bool_decide (is_Some (texture d)) && updated d = false ->
  polled (trace_of (gs_duplicator_update_frame e d dev)) = Some (env_AcquireNextFrame e).
Proof.
  intros Hd Hb. unfold gs_duplicator_update_frame. rewrite Hd, Hb.
  repeat case_match; simplify_eq/=; done.
Qed.

(** The shape of a call that took the re-present exit. *)
Lemma update_frame_represent e d dev h :
  duplicator d = Some h ->
  preview_attached d && bool_decide (is_Some (texture d)) && updated d = true ->
  gs_duplicator_update_frame e d dev
  = (true, (PresentFrame e d dev).1.1, (PresentFrame e d dev).1.2, (PresentFrame e d dev).2).
Proof.
  intros Hd Hb. unfold gs_duplicator_update_frame. rewrite Hd, Hb.
  by destruct (PresentFrame e d dev) as [[??]?].
Qed.

(** The return value read off the trace of the call. *)
Lemma update_frame_false_iff_polled_lost e d dev :
  let out := gs_duplicator_update_frame e d dev in
  (returned out = false <->
     duplicator d = None \/ polled (trace_of out) = Some DXGI_ERROR_ACCESS_LOST)
  /\ (polled (trace_of out) = None
      \/ polled (trace_of out) = Some (env_AcquireNextFrame e)).
Proof.
  intros out. subst out.
  destruct (duplicator d) as [h|] eqn:Hd.
  2: { unfold gs_duplicator_update_frame. rewrite Hd. simpl. split; [|by left].
       split; [by left|done]. }
  destruct (preview_attached d && bool_decide (is_Some (texture d)) && updated d) eqn:Hb.
  - rewrite (update_frame_represent e d dev h Hd Hb).
    unfold returned, trace_of. simpl.
    rewrite (polled_no_provider _ (PresentFrame_no_provider e d dev)).
    split; [|by left]. split; [done|]. intros [?|?]; done.
  - pose proof (update_frame_polling e d dev h Hd Hb) as Hp.
    rewrite Hp. split; [|by right].
    unfold gs_duplicator_update_frame. rewrite Hd, Hb.
    destruct (Z.eqb_spec (env_AcquireNextFrame e) DXGI_ERROR_ACCESS_LOST) as [Heq|Hne].
    { simpl. split; [intros _; right; by rewrite Heq|done]. }
    assert (returned_true : forall x : bool * gs_duplicator * gs_device * list event,
      returned x = true ->
      returned x = false <-> Some h = None \/ Some (env_AcquireNextFrame e) = Some DXGI_ERROR_ACCESS_LOST).
    { intros x ->. split; [done|]. intros [?|?]; simplify_eq. }
    apply returned_true.
    repeat case_match; simplify_eq/=; done.
Qed.

(** C1. [gs_duplicator_update_frame] returns false exactly when the capture
    handle is absent or the provider reports [DXGI_ERROR_ACCESS_LOST]. Without
    a handle the call returns false at once. With a handle, a call that takes
    the re-present exit returns true and does not ask the provider; every
    other call asks the provider, takes the provider's answer, and returns
    false exactly when that answer is [DXGI_ERROR_ACCESS_LOST]: a timeout, any
    other failure and a frame acquired all return true. *)
Theorem update_frame_false_iff_lost_or_absent e d dev :
  let out := gs_duplicator_update_frame e d dev in
  (returned out = false <->
     duplicator d = None \/ polled (trace_of out) = Some DXGI_ERROR_ACCESS_LOST)
  /\ (polled (trace_of out) = None
      \/ polled (trace_of out) = Some (env_AcquireNextFrame e))
  /\ match duplicator d with
     | None => out = (false, d, dev, [])
     | Some _ =>
         if preview_attached d && bool_decide (is_Some (texture d)) && updated d
         then returned out = true /\ polled (trace_of out) = None
         else
           polled (trace_of out) = Some (env_AcquireNextFrame e)
           /\ (returned out = false
               <-> env_AcquireNextFrame e = DXGI_ERROR_ACCESS_LOST)
     end.
Proof.
  intros out.
  destruct (update_frame_false_iff_polled_lost e d dev) as [Hiff Hpolled].
  fold out in Hiff, Hpolled. split; [exact Hiff|]. split; [exact Hpolled|].
  destruct (duplicator d) as [h|] eqn:Hd.
  2: { subst out. unfold gs_duplicator_update_frame. by rewrite Hd. }
  destruct (preview_attached d && bool_decide (is_Some (texture d)) && updated d) eqn:Hb.
  - subst out. rewrite (update_frame_represent e d dev h Hd Hb).
    unfold returned, trace_of. simpl. split; [done|].
    apply polled_no_provider, PresentFrame_no_provider.
  - pose proof (update_frame_polling e d dev h Hd Hb) as Hp. fold out in Hp.
    split; [exact Hp|]. rewrite Hiff, Hp. split.
    + intros [?|[= ->]]; done.
    + intros ->. by right.
Qed.

(** C3. A call whose poll acquired a frame releases the provider's frame
    exactly once, and a call that acquired none releases nothing. When the
    frame's texture interface cannot be queried the frame is released all the
    same, nothing else changes and the call returns true. *)
Theorem frame_released_exactly_once e d dev :
  let out := gs_duplicator_update_frame e d dev in
  releases (trace_of out) = (if frame_acquired (trace_of out) then 1 else 0)%nat
  /\ (if frame_acquired (trace_of out) && FAILED (env_QueryInterface e)
      then out = (true, d, dev,
                  [ev_AcquireNextFrame 0 (env_AcquireNextFrame e);
                   ev_QueryInterface_Texture2D (env_QueryInterface e);
                   ev_blog LOG_ERROR "gs_duplicator_update_frame: Failed to query ID3D11Texture2D";
                   ev_ReleaseFrame])
      else True).
Proof.
  intros out. subst out.
  destruct (duplicator d) as [h|] eqn:Hd.
  2: { unfold gs_duplicator_update_frame. rewrite Hd. simpl. done. }
  destruct (preview_attached d && bool_decide (is_Some (texture d)) && updated d) eqn:Hb.
  - rewrite (update_frame_represent e d dev h Hd Hb).
    unfold frame_acquired, trace_of. simpl.
    rewrite (polled_no_provider _ (PresentFrame_no_provider e d dev)).
    rewrite (releases_no_provider _ (PresentFrame_no_provider e d dev)). done.
  - unfold frame_acquired.
    rewrite (update_frame_polling e d dev h Hd Hb).
    unfold gs_duplicator_update_frame. rewrite Hd, Hb.
    rewrite SUCCEEDED_FAILED.
    destruct (Z.eqb_spec (env_AcquireNextFrame e) DXGI_ERROR_ACCESS_LOST) as [->|_].
    { by rewrite ACCESS_LOST_FAILED. }
    destruct (Z.eqb_spec (env_AcquireNextFrame e) DXGI_ERROR_WAIT_TIMEOUT) as [->|_].
    { by rewrite WAIT_TIMEOUT_FAILED. }
    destruct (FAILED (env_AcquireNextFrame e)); [done|].
    destruct (FAILED (env_QueryInterface e)); [done|].
    simpl negb. cbv iota. rewrite andb_false_r. split; [|done].
    pose proof (copy_texture_no_provider e d dev (env_frame e)) as Hc.
    destruct (copy_texture e d dev (env_frame e)) as [[d1 dev1] tr1]. simpl in Hc.
    assert (Hp : forall x : gs_duplicator * gs_device * list event,
      Forall (fun ev => is_provider_event ev = false) x.2 ->
      releases (trace_of (let '(d3, dev3, tr3) := x in
        (true, d3, dev3,
         [ev_AcquireNextFrame 0 (env_AcquireNextFrame e);
          ev_QueryInterface_Texture2D (env_QueryInterface e)]
         ++ tr1 ++ [ev_ReleaseFrame] ++ tr3))) = 1%nat).
    { intros [[d3 dev3] tr3] Hx. unfold trace_of. simpl in *.
      change (?a :: ?b :: tr1 ++ ev_ReleaseFrame :: tr3)
        with ([a; b] ++ tr1 ++ [ev_ReleaseFrame] ++ tr3).
      rewrite !releases_app, (releases_no_provider _ Hc), (releases_no_provider _ Hx).
      reflexivity. }
    apply Hp.
    destruct (preview_attached (set_updated true d1));
      [apply PresentFrame_no_provider|constructor].
Qed.

(** C5, as amended. With the capture handle in place: when a preview is
    attached, a cached texture exists and the fresh-frame flag is set (a poll
    has succeeded since the last [reset_duplicators]), the call is exactly one
    [PresentFrame], returns true and does not poll the provider; in every
    other case, with the flag clear or without a preview, the provider is
    polled. *)
Theorem represent_without_polling e d dev h :
  duplicator d = Some h ->
  let out := gs_duplicator_update_frame e d dev in
  if preview_attached d then
    if bool_decide (is_Some (texture d)) && updated d then
      out = (true, (PresentFrame e d dev).1.1, (PresentFrame e d dev).1.2,
             (PresentFrame e d dev).2)
      /\ polled (trace_of out) = None
    else polled (trace_of out) = Some (env_AcquireNextFrame e)
  else polled (trace_of out) = Some (env_AcquireNextFrame e).
Proof.
  intros Hd out. subst out.
  destruct (preview_attached d) eqn:Hp.
  - destruct (bool_decide (is_Some (texture d)) && updated d) eqn:Hb.
    + assert (Hc : preview_attached d && bool_decide (is_Some (texture d)) && updated d = true).
      { rewrite Hp. simpl. rewrite <- Hb. by destruct (bool_decide _). }
      rewrite (update_frame_represent e d dev h Hd Hc). split; [done|].
      apply polled_no_provider, PresentFrame_no_provider.
    + apply (update_frame_polling e d dev h Hd).
      rewrite Hp. simpl. rewrite <- Hb. by destruct (bool_decide _).
  - apply (update_frame_polling e d dev h Hd). by rewrite Hp.
Qed.

(** ** Registry *)

Lemma to_int32_small v : - 2 ^ 31 <= v < 2 ^ 31 -> to_int32 v = v.
Proof. intros Hv. unfold to_int32. rewrite Z.mod_small; lia. Qed.

Lemma set_refs_set_refs a b d : set_refs a (set_refs b d) = set_refs a d.
Proof. reflexivity. Qed.

Lemma set_refs_refs d : set_refs (refs d) d = d.
Proof. by destruct d. Qed.

Lemma create_registered e monitor_idx w p d0 r :
  registered_with w monitor_idx p d0 r -> 0 <= r -> r + 1 < 2 ^ 31 ->
  exists w',
    device_duplicator_create e monitor_idx w = (Some p, w', [])
    /\ registered_with w' monitor_idx p d0 (r + 1).
Proof.
  intros (Hi & Hh & Hidx) H0 H1.
  unfold device_duplicator_create. rewrite Hi. eexists. split; [done|].
  split; [done|]. simpl. split; [|done].
  rewrite lookup_alter_eq, Hh. simpl.
  by rewrite to_int32_small by lia.
Qed.

Lemma destroy_shared p monitor_idx w d0 r :
  registered_with w monitor_idx p d0 r -> 1 < r -> r <= 2 ^ 31 ->
  exists w',
    gs_duplicator_destroy p w = (w', [])
    /\ registered_with w' monitor_idx p d0 (r - 1).
Proof.
  intros (Hi & Hh & Hidx) H0 H1.
  unfold gs_duplicator_destroy. rewrite Hh. simpl refs.
  rewrite to_int32_small by lia.
  destruct (Z.eqb_spec (r - 1) 0); [lia|].
  eexists. split; [done|]. split; [done|]. simpl.
  by rewrite lookup_insert_eq.
Qed.

Lemma destroy_last p monitor_idx w d0 :
  registered_with w monitor_idx p d0 1 ->
  exists w',
    gs_duplicator_destroy p w = (w', gs_duplicator_delete (set_refs 0 d0))
    /\ instances w' !! monitor_idx = None
    /\ heap w' !! p = None.
Proof.
  intros (Hi & Hh & Hidx).
  unfold gs_duplicator_destroy. rewrite Hh. simpl.
  eexists. split_and!; [done|..]; simpl.
  - rewrite Hidx. apply lookup_delete_eq.
  - apply lookup_delete_eq.
Qed.

Lemma create_again_registered e monitor_idx p d0 n : forall w r,
  registered_with w monitor_idx p d0 r -> 0 <= r -> r + Z.of_nat n < 2 ^ 31 ->
  (create_again e monitor_idx n w).1 = replicate n (Some p)
  /\ registered_with (create_again e monitor_idx n w).2 monitor_idx p d0 (r + Z.of_nat n).
Proof.
  induction n as [|n IH]; intros w r Hw H0 H1.
  - simpl. by rewrite Z.add_0_r.
  - destruct (create_registered e monitor_idx w p d0 r Hw H0) as (w' & Hc & Hw'); [lia|].
    simpl create_again. rewrite Hc.
    destruct (IH w' (r + 1)) as [Hrs Hreg]; [done|lia|lia|].
    destruct (create_again e monitor_idx n w') as [rs w2]. simpl in *.
    rewrite Hrs. split; [done|].
    by replace (r + Z.of_nat (S n)) with (r + 1 + Z.of_nat n) by lia.
Qed.

Lemma destroy_times_shared p monitor_idx d0 k : forall w r,
  registered_with w monitor_idx p d0 r -> Z.of_nat k < r -> r <= 2 ^ 31 ->
  (destroy_times p k w).2 = []
  /\ registered_with (destroy_times p k w).1 monitor_idx p d0 (r - Z.of_nat k).
Proof.
  induction k as [|k IH]; intros w r Hw H0 H1.
  - simpl. by rewrite Z.sub_0_r.
  - destruct (destroy_shared p monitor_idx w d0 r Hw) as (w' & Hd & Hw'); [lia|lia|].
    simpl destroy_times. rewrite Hd.
    destruct (IH w' (r - 1)) as [Htr Hreg]; [done|lia|lia|].
    destruct (destroy_times p k w') as [w2 tr2]. simpl in *.
    rewrite Htr. split; [done|].
    by replace (r - Z.of_nat (S k)) with (r - 1 - Z.of_nat k) by lia.
Qed.

Lemma destroy_times_app p j : forall k w,
  destroy_times p (j + k) w
  = ((destroy_times p k (destroy_times p j w).1).1,
     (destroy_times p j w).2 ++ (destroy_times p k (destroy_times p j w).1).2).
Proof.
  induction j as [|j IH]; intros k w.
  - simpl. by destruct (destroy_times p k w).
  - simpl. destruct (gs_duplicator_destroy p w) as [w1 tr1].
    rewrite IH. destruct (destroy_times p j w1) as [w2 tr2]. simpl.
    destruct (destroy_times p k w2) as [w3 tr3]. simpl. by rewrite app_assoc.
Qed.

Lemma destroy_times_snoc p k w :
  destroy_times p (S k) w
  = ((gs_duplicator_destroy p (destroy_times p k w).1).1,
     (destroy_times p k w).2 ++ (gs_duplicator_destroy p (destroy_times p k w).1).2).
Proof.
  replace (S k) with (k + 1)%nat by lia. rewrite destroy_times_app. simpl.
  destruct (gs_duplicator_destroy p (destroy_times p k w).1) as [w1 tr1].
  simpl. by rewrite app_nil_r.
Qed.

Lemma create_new e monitor_idx w d0 :
  instances w !! monitor_idx = None ->
  (gs_duplicator_new e (bump_next_obj (device w)) (registered w) monitor_idx).1.1.1
    = inr d0 ->
  (device_duplicator_create e monitor_idx w).1.1 = Some (next_obj (device w))
  /\ registered_with (device_duplicator_create e monitor_idx w).1.2 monitor_idx
       (next_obj (device w)) d0 1.
Proof.
  intros Hi Hnew. unfold device_duplicator_create. rewrite Hi.
  assert (Hd0 : idx d0 = monitor_idx /\ refs d0 = 1).
  { unfold gs_duplicator_new in Hnew.
    destruct (Start_duplication e) as [?|[[??]?]]; [done|].
    destruct (CreateDisplayWindow _ _ _) as [[[[?|[??]] ?] ?] ?]; simplify_eq/=; done. }
  destruct Hd0 as [Hidx Hrefs].
  destruct (gs_duplicator_new _ _ _ _) as [[[[ex|d] dev'] reg'] tr]; simplify_eq/=.
  split; [done|]. split_and!; simpl; [apply lookup_insert_eq| |done].
  rewrite lookup_insert_eq. by rewrite <- Hrefs, set_refs_refs.
Qed.

(** C2. Starting from a registry without a session for [monitor_idx] whose
    construction succeeds: the first call of [device_duplicator_create]
    returns a new session pointer; each of [n] further calls returns that same
    pointer and leaves the same session with one more reference (two after
    the second call). Calling [gs_duplicator_destroy] up to [n] times destroys
    nothing and keeps the registry entry; the call that brings the count to
    zero (as many calls as there were acquisitions) erases the entry and
    destroys the session. *)
Theorem acquire_shares_release_destroys e e' monitor_idx w d0 n :
  instances w !! monitor_idx = None ->
  (gs_duplicator_new e (bump_next_obj (device w)) (registered w) monitor_idx).1.1.1
    = inr d0 ->
  1 + Z.of_nat n < 2 ^ 31 ->
  let p := next_obj (device w) in
  let first := device_duplicator_create e monitor_idx w in
  let shared := create_again e' monitor_idx n first.1.2 in
  first.1.1 = Some p
  /\ registered_with first.1.2 monitor_idx p d0 1
  /\ shared.1 = replicate n (Some p)
  /\ registered_with shared.2 monitor_idx p d0 (1 + Z.of_nat n)
  /\ (forall k, (k <= n)%nat ->
        (destroy_times p k shared.2).2 = []
        /\ registered_with (destroy_times p k shared.2).1 monitor_idx p d0
             (1 + Z.of_nat n - Z.of_nat k))
  /\ (destroy_times p (S n) shared.2).2 = gs_duplicator_delete (set_refs 0 d0)
  /\ instances (destroy_times p (S n) shared.2).1 !! monitor_idx = None
  /\ heap (destroy_times p (S n) shared.2).1 !! p = None.
Proof.
  intros Hi Hnew Hn p first shared.
  destruct (create_new e monitor_idx w d0 Hi Hnew) as [Hp Hreg].
  fold p in Hp, Hreg. fold first in Hp, Hreg.
  destruct (create_again_registered e' monitor_idx p d0 n first.1.2 1 Hreg)
    as [Hrs Hshared]; [lia|lia|].
  fold shared in Hrs, Hshared.
  assert (Hk : forall k, (k <= n)%nat ->
    (destroy_times p k shared.2).2 = []
    /\ registered_with (destroy_times p k shared.2).1 monitor_idx p d0
         (1 + Z.of_nat n - Z.of_nat k)).
  { intros k Hkn. apply destroy_times_shared; [done|lia|lia]. }
  split_and!; try done.
  all: rewrite destroy_times_snoc; simpl.
  all: destruct (Hk n (le_n n)) as [Htr Hlast].
  all: replace (1 + Z.of_nat n - Z.of_nat n) with 1 in Hlast by lia.
  all: destruct (destroy_last p monitor_idx _ d0 Hlast) as (w' & Hd & Hinst & Hheap).
  all: rewrite Hd; simpl; try done.
  by rewrite Htr.
Qed.

(** C6. When the constructor of the session throws (an invalid monitor index,
    a provider error while the duplication is set up, or any other exception
    of [Start]), [device_duplicator_create] returns null and the registry map
    and the sessions are what they were: no entry for that index exists. *)
Theorem failed_construction_leaves_registry e monitor_idx w :
  instances w !! monitor_idx = None ->
  construction_fails e monitor_idx w ->
  let out := device_duplicator_create e monitor_idx w in
  out.1.1 = None
  /\ instances out.1.2 = instances w
  /\ heap out.1.2 = heap w
  /\ instances out.1.2 !! monitor_idx = None.
Proof.
  intros Hi [ex Hex] out. subst out.
  unfold device_duplicator_create. rewrite Hi.
  destruct (gs_duplicator_new _ _ _ _) as [[[[ex'|d] dev'] reg'] tr]; simplify_eq/=.
  destruct ex as [msg|[str hr]]; simpl; done.
Qed.

(** Two ways for the constructor to throw: the adapter has no output with
    that index, or the provider refuses the duplication. *)
Lemma invalid_index_fails e monitor_idx w :
  env_EnumOutputs e = DXGI_ERROR_NOT_FOUND -> construction_fails e monitor_idx w.
Proof.
  intros He. exists (throw_str "Invalid monitor index").
  unfold gs_duplicator_new, Start_duplication. by rewrite He.
Qed.

Lemma provider_error_fails e monitor_idx w ex :
  Start_duplication e = inl ex -> construction_fails e monitor_idx w.
Proof.
  intros He. exists ex. unfold gs_duplicator_new. by rewrite He.
Qed.

Lemma DuplicateOutput1_error_fails e :
  SUCCEEDED (env_EnumOutputs e) = true ->
  SUCCEEDED (env_QueryInterface_Output5 e) = true ->
  FAILED (env_DuplicateOutput1 e) = true ->
  Start_duplication e
  = inl (throw_HRError (mkHRError "Failed to DuplicateOutput1" (env_DuplicateOutput1 e))).
Proof.
  intros H1 H2 H3. unfold Start_duplication, get_monitor.
  rewrite SUCCEEDED_FAILED in H1. apply negb_true_iff in H1.
  by rewrite H1, H2, H3.
Qed.

Lemma DuplicateOutput_error_fails e :
  SUCCEEDED (env_EnumOutputs e) = true ->
  SUCCEEDED (env_QueryInterface_Output5 e) = false ->
  FAILED (env_QueryInterface_Output1 e) = false ->
  FAILED (env_DuplicateOutput e) = true ->
  Start_duplication e
  = inl (throw_HRError (mkHRError "Failed to DuplicateOutput" (env_DuplicateOutput e))).
Proof.
  intros H1 H2 H3 H4. unfold Start_duplication, get_monitor.
  rewrite SUCCEEDED_FAILED in H1. apply negb_true_iff in H1.
  by rewrite H1, H2, H3, H4.
Qed.

(** ** Texture cache *)

(** C4, as amended. With a cached texture [t] (an object older than the
    device's next serial): the cached texture is destroyed and a new
    allocation requested exactly when the frame's width, height or generalized
    format differs from [t]'s. If the allocation succeeds the session holds a
    new texture object of the frame's size and generalized format, and the
    frame is copied into it; if it fails the session is left without a cached
    texture and nothing is copied. When all three match, [t] itself is kept
    and the frame is copied into it with one whole-resource copy. *)
Theorem texture_recreated_on_mismatch e d dev tex t :
  texture d = Some t ->
  (gs_texture_2d.id t < next_obj dev)%nat ->
  let desc := GetDesc tex in
  let general_format := gs_generalize_format (ConvertDXGITextureFormat (Format desc)) in
  let out := copy_texture e d dev tex in
  if negb (gs_texture_2d.width t =? Width desc)
     || negb (gs_texture_2d.height t =? Height desc)
     || negb (gs_texture_2d.format t =? general_format)
  then
    match env_texture_alloc e with
    | Some res =>
        exists t',
          texture out.1.1 = Some t'
          /\ gs_texture_2d.id t' <> gs_texture_2d.id t
          /\ gs_texture_2d.width t' = Width desc
          /\ gs_texture_2d.height t' = Height desc
          /\ gs_texture_2d.format t' = general_format
          /\ gs_texture_2d.image t' = Some (frame_image tex)
          /\ out.2 = [ev_delete_texture (gs_texture_2d.id t);
                      ev_gs_texture_create (Width desc) (Height desc) general_format
                        (Some (gs_texture_2d.id t'));
                      ev_CopyResource (gs_texture_2d.id t') (frame_image tex)]
    | None =>
        texture out.1.1 = None
        /\ out.2 = [ev_delete_texture (gs_texture_2d.id t);
                    ev_gs_texture_create (Width desc) (Height desc) general_format None]
    end
  else
    texture out.1.1 = Some (gs_texture_2d.set_image (Some (frame_image tex)) t)
    /\ out.1.2 = dev
    /\ out.2 = [ev_CopyResource (gs_texture_2d.id t) (frame_image tex)].
Proof.
  intros Ht Hid desc general_format out. subst out desc general_format.
  unfold copy_texture, ensure_texture, needs_new_texture. rewrite Ht.
  destruct (_ || _).
  - unfold gs_texture_create.
    destruct (env_texture_alloc e) as [res|]; simpl.
    + eexists. split_and!; try done. simpl. lia.
    + done.
  - simpl. by rewrite Ht.
Qed.

(** X27. Along a run of frames that all fit the cached texture, the texture
    stays the same object: only the image it holds changes, and nothing is
    allocated. *)
Lemma texture_stable_across_fitting_frames frames : forall d dev t,
  texture d = Some t ->
  Forall (fun f => frame_fits t f.2) frames ->
  exists img,
    texture (copy_frames frames d dev).1.1 = Some (gs_texture_2d.set_image img t)
    /\ (copy_frames frames d dev).1.2 = dev.
Proof.
  induction frames as [|[e tex] rest IH]; intros d dev t Ht Hfit.
  - exists (gs_texture_2d.image t). simpl. split; [|done]. rewrite Ht. by destruct t.
  - apply Forall_cons in Hfit as [(Hw & Hh & Hf) Hrest].
    assert (Hstep :
      texture (copy_texture e d dev tex).1.1
        = Some (gs_texture_2d.set_image (Some (frame_image tex)) t)
      /\ (copy_texture e d dev tex).1.2 = dev).
    { unfold copy_texture, ensure_texture, needs_new_texture. rewrite Ht.
      simpl in Hw, Hh, Hf. rewrite Hw, Hh, Hf, !Z.eqb_refl. simpl. by rewrite Ht. }
    destruct Hstep as [Ht1 Hdev1].
    simpl copy_frames.
    destruct (copy_texture e d dev tex) as [[d1 dev1] tr1]. simpl in Ht1, Hdev1.
    subst dev1.
    destruct (IH d1 dev (gs_texture_2d.set_image (Some (frame_image tex)) t) Ht1)
      as (img & Himg & Hdev); [by destruct t|].
    destruct (copy_frames rest d1 dev) as [[d2 dev2] tr2]. simpl in *.
    exists img. by destruct t.
Qed.

(** Where the color space is assigned: only where the texture cache
    allocates. When no texture is cached or the cached one differs from the
    frame in width, height or generalized format, it becomes
    [GS_CS_709_SCRGB] for an HDR session, [GS_CS_SRGB_16F] for a half-float
    frame of a session that is not HDR, and [GS_CS_SRGB] otherwise. A frame
    that fits the cached texture leaves the field as it was. The HDR flag
    itself is never changed. *)
Lemma color_space_recomputed_on_recreate e d dev tex :
  let desc := GetDesc tex in
  let general_format := gs_generalize_format (ConvertDXGITextureFormat (Format desc)) in
  let out := copy_texture e d dev tex in
  hdr out.1.1 = hdr d
  /\ color_space out.1.1
     = if needs_new_texture d desc general_format then
         if hdr d then GS_CS_709_SCRGB
         else if Format desc =? DXGI_FORMAT_R16G16B16A16_FLOAT then GS_CS_SRGB_16F
         else GS_CS_SRGB
       else color_space d.
Proof.
  intros desc general_format out. subst out desc general_format.
  unfold copy_texture, ensure_texture.
  destruct (needs_new_texture _ _ _).
  - destruct (gs_texture_create _ _ _ _ _) as [[t'|] dev']; simpl; done.
  - destruct (texture d) eqn:Ht; simpl; rewrite ?Ht; done.
Qed.

(** [PresentFrame] touches nothing of the session but the state of its swap
    chain, which stays in place. *)
Lemma PresentFrame_session e d dev :
  exists sc,
    (PresentFrame e d dev).1.1 = set_displaySwapChain sc d
    /\ (is_Some sc <-> is_Some (displaySwapChain d)).
Proof.
  assert (Hnoop : exists sc, d = set_displaySwapChain sc d
                             /\ (is_Some sc <-> is_Some (displaySwapChain d))).
  { exists (displaySwapChain d). split; [by destruct d|done]. }
  unfold PresentFrame.
  destruct (displayWindow d); [|done].
  destruct (displaySwapChain d) as [sc|] eqn:Hsc; [|done].
  destruct (texture d) as [tex|]; [|done].
  destruct (gs_texture_2d.texture tex) as [src|]; [|done].
  destruct (negb (env_IsWindowVisible e)); [done|].
  destruct (_ || _); [done|].
  destruct (present_resize _ _ _ _) as [[sc'|sc'] tr]; simpl.
  - destruct (present_draw _ _ _ _). simpl. exists (Some sc'). by split.
  - exists (Some sc'). by split.
Qed.

(** The texture cache allocates at the device's next serial, so cached
    textures stay older than the next serial. *)
Lemma copy_texture_serial e d dev tex :
  (forall t, texture d = Some t -> (gs_texture_2d.id t < next_obj dev)%nat) ->
  forall t, texture (copy_texture e d dev tex).1.1 = Some t ->
            (gs_texture_2d.id t < next_obj (copy_texture e d dev tex).1.2)%nat.
Proof.
  intros Hwf t. unfold copy_texture, ensure_texture, gs_texture_create.
  destruct (needs_new_texture _ _ _).
  - destruct (env_texture_alloc e); simpl; intros Ht; simplify_eq/=. lia.
  - simpl. destruct (texture d) as [t0|] eqn:Ht0; simpl; rewrite ?Ht0; [|done].
    intros Ht. simplify_eq/=. by apply Hwf.
Qed.

(** C10, as amended. A call that acquired a frame and obtained its texture
    interface always sets the fresh-frame flag. Whatever texture is cached
    afterwards has the frame's size and holds the frame; the session is left
    without a cached texture exactly when a new texture was needed and its
    allocation failed, and the flag is set in that case too. A call that
    acquired a frame but could not obtain its texture interface leaves the
    session as it was. *)
Theorem fresh_flag_and_cached_texture e d dev :
  let out := gs_duplicator_update_frame e d dev in
  let desc := GetDesc (env_frame e) in
  let general_format := gs_generalize_format (ConvertDXGITextureFormat (Format desc)) in
  if frame_acquired (trace_of out) then
    if FAILED (env_QueryInterface e) then session_after out = d
    else
      updated (session_after out) = true
      /\ match texture (session_after out) with
         | Some t =>
             gs_texture_2d.image t = Some (frame_image (env_frame e))
             /\ gs_texture_2d.width t = Width desc
             /\ gs_texture_2d.height t = Height desc
             /\ gs_texture_2d.format t = general_format
         | None =>
             needs_new_texture d desc general_format = true
             /\ env_texture_alloc e = None
         end
      /\ (needs_new_texture d desc general_format = true
          /\ env_texture_alloc e = None ->
          texture (session_after out) = None)
  else
    updated (session_after out) = updated d
    /\ texture (session_after out) = texture d.
Proof.
  intros out desc general_format. subst out desc general_format.
  destruct (duplicator d) as [h|] eqn:Hd.
  2: { unfold gs_duplicator_update_frame. rewrite Hd. done. }
  destruct (preview_attached d && bool_decide (is_Some (texture d)) && updated d) eqn:Hb.
  { rewrite (update_frame_represent e d dev h Hd Hb).
    unfold frame_acquired, trace_of, session_after. simpl.
    rewrite (polled_no_provider _ (PresentFrame_no_provider e d dev)).
    destruct (PresentFrame_session e d dev) as (sc & -> & _). done. }
  unfold frame_acquired. rewrite (update_frame_polling e d dev h Hd Hb).
  rewrite SUCCEEDED_FAILED.
  unfold gs_duplicator_update_frame. rewrite Hd, Hb.
  destruct (Z.eqb_spec (env_AcquireNextFrame e) DXGI_ERROR_ACCESS_LOST) as [->|_].
  { by rewrite ACCESS_LOST_FAILED. }
  destruct (Z.eqb_spec (env_AcquireNextFrame e) DXGI_ERROR_WAIT_TIMEOUT) as [->|_].
  { by rewrite WAIT_TIMEOUT_FAILED. }
  destruct (FAILED (env_AcquireNextFrame e)); [done|]. simpl negb. cbv iota.
  destruct (FAILED (env_QueryInterface e)); [done|].
  assert (Hcopy :
    match texture (copy_texture e d dev (env_frame e)).1.1 with
    | Some t =>
        gs_texture_2d.image t = Some (frame_image (env_frame e))
        /\ gs_texture_2d.width t = Width (GetDesc (env_frame e))
        /\ gs_texture_2d.height t = Height (GetDesc (env_frame e))
        /\ gs_texture_2d.format t
           = gs_generalize_format (ConvertDXGITextureFormat (Format (GetDesc (env_frame e))))
    | None =>
        needs_new_texture d (GetDesc (env_frame e))
          (gs_generalize_format (ConvertDXGITextureFormat (Format (GetDesc (env_frame e)))))
        = true
        /\ env_texture_alloc e = None
    end
    /\ (needs_new_texture d (GetDesc (env_frame e))
          (gs_generalize_format (ConvertDXGITextureFormat (Format (GetDesc (env_frame e)))))
        = true
        /\ env_texture_alloc e = None ->
        texture (copy_texture e d dev (env_frame e)).1.1 = None)).
  { unfold copy_texture, ensure_texture.
    destruct (needs_new_texture _ _ _) eqn:Hneed.
    - unfold gs_texture_create. destruct (env_texture_alloc e); simpl; split; try done.
      by intros [_ ?].
    - unfold needs_new_texture in Hneed.
      destruct (texture d) as [t|] eqn:Ht; [|done]. simpl. rewrite ?Ht. simpl.
      apply orb_false_iff in Hneed as [Hneed Hf].
      apply orb_false_iff in Hneed as [Hw Hh].
      apply negb_false_iff in Hw, Hh, Hf.
      split; [split_and!; [done|lia..]|]. by intros [? _]. }
  destruct (copy_texture e d dev (env_frame e)) as [[d1 dev1] tr1]. simpl in Hcopy.
  destruct Hcopy as [Hcopy Hfailed].
  destruct (preview_attached (set_updated true d1)).
  - destruct (PresentFrame_session e (set_updated true d1) dev1) as (sc & Hsc & _).
    destruct (PresentFrame e (set_updated true d1) dev1) as [[d3 dev3] tr3].
    simpl in Hsc. subst d3. unfold session_after. simpl. done.
  - unfold session_after. simpl. done.
Qed.

(** ** Preview presenter *)

Lemma present_draw_curSwapChain sc tex src dev :
  curSwapChain (present_draw sc tex src dev).1 = curSwapChain dev
  /\ curSwapChain (present_commands sc tex src (present_device sc dev)).1
     = Some (sc_id sc).
Proof.
  unfold present_draw, present_commands.
  destruct (gs_texture_2d.renderTarget0 (target sc)); done.
Qed.

(** C8, as amended. Of the shared device state, [PresentFrame] saves and
    restores the current swap chain: either it returns before touching the
    device, or its drawing calls run with the preview's swap chain current and
    the swap chain that was current before is current again when it returns,
    on the exit without a render target view as well as after presenting. *)
Theorem present_restores_current_swap_chain e d dev :
  let out := PresentFrame e d dev in
  curSwapChain out.1.2 = curSwapChain dev
  /\ (out.1.2 = dev
      \/ exists sc tex src,
           let drawn := (present_commands sc tex src (present_device sc dev)).1 in
           displaySwapChain out.1.1 = Some sc
           /\ curSwapChain (present_device sc dev) = Some (sc_id sc)
           /\ curSwapChain drawn = Some (sc_id sc)
           /\ out.1.2 = set_curSwapChain (curSwapChain dev) drawn).
Proof.
  intros out. subst out. unfold PresentFrame.
  destruct (displayWindow d); [|by split; [|left]].
  destruct (displaySwapChain d) as [sc|]; [|by split; [|left]].
  destruct (texture d) as [tex|]; [|by split; [|left]].
  destruct (gs_texture_2d.texture tex) as [src|]; [|by split; [|left]].
  destruct (negb (env_IsWindowVisible e)); [by split; [|left]|].
  destruct (_ || _); [by split; [|left]|].
  destruct (present_resize _ _ _ _) as [[sc'|sc'] tr]; [|by split; [|left]].
  destruct (present_draw_curSwapChain sc' tex src dev) as [Hrestored Hduring].
  unfold present_draw in *.
  destruct (present_commands sc' tex src (present_device sc' dev)) as [dev' tr'] eqn:Hcmd.
  simpl in *. split; [done|]. right. exists sc', tex, src.
  rewrite Hcmd. done.
Qed.

(** C9. A present on a window whose client area has zero width or zero height
    does nothing at all: no resize, no copy, session and device as before.
    With a nonzero client area and the presenter ready (window, swap chain,
    cached texture and its resource exist, window visible): when the client
    area differs from the swap chain's target size, [Resize] is the first
    call; if it succeeds the drawing follows on the resized swap chain, if it
    throws the failure is logged and nothing is drawn, the device being left
    as it was. When the sizes agree it draws without a resize. *)
Theorem present_zero_area_and_resize e d dev :
  let out := PresentFrame e d dev in
  let w := windowWidth (env_GetClientRect e) in
  let h := windowHeight (env_GetClientRect e) in
  if (w =? 0) || (h =? 0) then out = (d, dev, [])
  else
    match present_ready e d with
    | None => out = (d, dev, [])
    | Some (sc, tex, src) =>
        if negb (w =? gs_texture_2d.width (target sc))
           || negb (h =? gs_texture_2d.height (target sc)) then
          match env_Resize e sc w h GS_BGRA with
          | (None, t') =>
              out = (set_displaySwapChain (Some (set_target t' sc)) d,
                     (present_draw (set_target t' sc) tex src dev).1,
                     ev_Resize (sc_id sc) w h GS_BGRA true
                       :: (present_draw (set_target t' sc) tex src dev).2)
          | (Some _, t') =>
              out = (set_displaySwapChain (Some (set_target t' sc)) d, dev,
                     [ev_Resize (sc_id sc) w h GS_BGRA false;
                      ev_blog LOG_ERROR "Failed to resize swap chain"])
          end
        else
          out = (set_displaySwapChain (Some sc) d,
                 (present_draw sc tex src dev).1,
                 (present_draw sc tex src dev).2)
    end.
Proof.
  intros out w h. subst out. unfold PresentFrame, present_ready.
  fold w h.
  destruct ((w =? 0) || (h =? 0)) eqn:Hzero.
  { repeat case_match; simplify_eq/=; done. }
  destruct (displayWindow d); [|done].
  destruct (displaySwapChain d) as [sc|]; [|done].
  destruct (texture d) as [tex|]; [|done].
  destruct (gs_texture_2d.texture tex) as [src|]; [|done].
  destruct (env_IsWindowVisible e); [|done]. simpl negb. cbv iota.
  unfold present_resize.
  destruct (negb (w =? gs_texture_2d.width (target sc))
            || negb (h =? gs_texture_2d.height (target sc))).
  - destruct (env_Resize e sc w h GS_BGRA) as [[err|] t']; [done|].
    by destruct (present_draw _ _ _ _).
  - by destruct (present_draw _ _ _ _).
Qed.

(** The drawing of [PresentFrame] never resizes, and it copies only behind a
    render target view. *)
Lemma present_draw_trace sc tex src dev :
  Forall (fun ev => match ev with ev_Resize _ _ _ _ _ => False | _ => True end)
    (present_draw sc tex src dev).2.
Proof.
  unfold present_draw, present_commands.
  destruct (gs_texture_2d.renderTarget0 (target sc)); simpl; repeat constructor.
Qed.

(** ** Freshness reset *)

(** [reset_duplicators] clears the flag of every session the registry points
    to and changes nothing else of any session. *)
Lemma reset_duplicators_clears w i p :
  instances w !! i = Some p ->
  heap (reset_duplicators w) !! p = set_updated false <$> heap w !! p.
Proof.
  unfold reset_duplicators. simpl. revert i p.
  apply (map_fold_weak_ind
    (fun (r : gmap nat gs_duplicator) (m : gmap Z nat) =>
       (forall q, r !! q = heap w !! q \/ r !! q = set_updated false <$> heap w !! q)
       /\ (forall i p, m !! i = Some p -> r !! p = set_updated false <$> heap w !! p))).
  - split; [by left|]. intros i p Hi. by rewrite lookup_empty in Hi.
  - intros j x m r Hj [Hall Hreg].
    assert (Hx : alter (set_updated false) x r !! x = set_updated false <$> heap w !! x).
    { rewrite lookup_alter_eq.
      destruct (Hall x) as [-> | ->]; [done|]. by destruct (heap w !! x). }
    split.
    + intros q. destruct (decide (x = q)) as [<-|Hne]; [by right|].
      rewrite lookup_alter_ne by done. apply Hall.
    + intros i p Hi. destruct (decide (x = p)) as [<-|Hne]; [done|].
      rewrite lookup_alter_ne by done.
      destruct (decide (j = i)) as [<-|Hji].
      * rewrite lookup_insert_eq in Hi. congruence.
      * rewrite lookup_insert_ne in Hi by done. by apply (Hreg i).
Qed.

(** After the reset, the next update of a registered session with its capture
    handle polls the provider. *)
Lemma update_after_reset_polls e w i p d :
  instances w !! i = Some p ->
  heap w !! p = Some d ->
  is_Some (duplicator d) ->
  exists d',
    heap (reset_duplicators w) !! p = Some d'
    /\ polled (trace_of (gs_duplicator_update_frame e d' (device w)))
       = Some (env_AcquireNextFrame e).
Proof.
  intros Hi Hp [h Hh]. exists (set_updated false d).
  split; [by rewrite (reset_duplicators_clears w i p Hi), Hp|].
  apply (update_frame_polling e _ (device w) h); [done|].
  simpl. apply andb_false_r.
Qed.

End Properties.

(** ** The theorems at concrete inputs *)

(** Acquiring monitor 0 twice and releasing it twice. *)
Lemma acquire_twice_release_twice :
  let first := device_duplicator_create (H:=sample_headers) (sample_start_env S_OK) 0 sample_world in
  let second := device_duplicator_create (H:=sample_headers) (sample_start_env S_OK) 0 first.1.2 in
  first.1.1 = Some 2%nat
  /\ second.1.1 = Some 2%nat
  /\ heap second.1.2 !! 2%nat = Some (set_refs 2 sample_new_session)
  /\ instances (destroy_times 2 1 second.1.2).1 !! 0 = Some 2%nat
  /\ instances (destroy_times 2 2 second.1.2).1 !! 0 = None
  /\ heap (destroy_times 2 2 second.1.2).1 !! 2%nat = None.
Proof.
  intros first second.
  assert (Hnone : instances sample_world !! 0 = None) by reflexivity.
  assert (Hnew :
    (gs_duplicator_new (H:=sample_headers) (sample_start_env S_OK)
       (bump_next_obj (device sample_world)) (registered sample_world) 0).1.1.1
    = inr sample_new_session) by reflexivity.
  assert (Hn : 1 + Z.of_nat 1 < 2 ^ 31) by reflexivity.
  destruct (acquire_shares_release_destroys (H:=sample_headers)
              (sample_start_env S_OK) (sample_start_env S_OK) 0 sample_world
              sample_new_session 1 Hnone Hnew Hn)
    as (Hfirst & _ & Hshared & Hreg & Hkeep & _ & Hgone & Hfreed).
  assert (Hsecond :
    (create_again (H:=sample_headers) (sample_start_env S_OK) 0 1 first.1.2)
    = ([second.1.1], second.1.2)).
  { subst second. simpl.
    by destruct (device_duplicator_create _ 0 first.1.2) as [[??]?]. }
  fold first in Hshared, Hreg, Hkeep, Hgone, Hfreed.
  rewrite Hsecond in Hshared, Hreg, Hkeep, Hgone, Hfreed. simpl in *.
  destruct Hreg as (_ & Hheap & _).
  destruct (Hkeep 1%nat (le_n 1)) as [_ (Hinst & _)].
  split_and!; done.
Defined.

(** A 1280x720 frame arriving on a 1920x1080 cached texture, allocation
    succeeding. *)
Lemma recreated_for_smaller_frame :
  let tex := sample_frame 1280 720 DXGI_FORMAT_B8G8R8A8_UNORM 7 in
  let out := copy_texture (H:=sample_headers) (sample_update_env tex (Some 31%nat))
               sample_session sample_device tex in
  exists t',
    texture out.1.1 = Some t'
    /\ gs_texture_2d.id t' <> gs_texture_2d.id sample_texture
    /\ gs_texture_2d.width t' = 1280 /\ gs_texture_2d.height t' = 720.
Proof.
  intros tex out.
  assert (Ht : texture sample_session = Some sample_texture) by reflexivity.
  assert (Hid : (gs_texture_2d.id sample_texture < next_obj sample_device)%nat).
  { simpl. lia. }
  destruct (texture_recreated_on_mismatch (H:=sample_headers)
              (sample_update_env tex (Some 31%nat)) sample_session sample_device tex
              sample_texture Ht Hid)
    as (t' & H1 & H2 & H3 & H4 & _).
  exists t'. done.
Defined.

(** A second update in the same cycle of a session with preview. *)
Lemma represent_sample_session :
  let e := sample_update_env (sample_frame 1280 720 DXGI_FORMAT_B8G8R8A8_UNORM 7) None in
  polled (trace_of (gs_duplicator_update_frame (H:=sample_headers) e sample_session
                      sample_device)) = None
  /\ returned (gs_duplicator_update_frame (H:=sample_headers) e sample_session
                 sample_device) = true.
Proof.
  intros e.
  assert (Hd : duplicator sample_session = Some 10%nat) by reflexivity.
  destruct (represent_without_polling (H:=sample_headers) e sample_session
              sample_device 10%nat Hd) as [Hout Hpolled].
  split; [exact Hpolled|]. by rewrite Hout.
Defined.

(** Asking for monitor 5 of an adapter that has no such output. *)
Lemma invalid_monitor_leaves_registry :
  let out := device_duplicator_create (H:=sample_headers)
               (sample_start_env DXGI_ERROR_NOT_FOUND) 5 sample_world in
  out.1.1 = None /\ instances out.1.2 = instances sample_world.
Proof.
  intros out.
  assert (Hnone : instances sample_world !! 5 = None) by reflexivity.
  assert (Hfail : construction_fails (H:=sample_headers)
                    (sample_start_env DXGI_ERROR_NOT_FOUND) 5 sample_world).
  { by apply invalid_index_fails. }
  destruct (failed_construction_leaves_registry (H:=sample_headers)
              (sample_start_env DXGI_ERROR_NOT_FOUND) 5 sample_world Hnone Hfail)
    as (Hnull & Hinst & _).
  done.
Defined.

(** ** Where the specification and the code part *)

(** C4, as stated, at a failed allocation: the frame is smaller than the
    cached texture, the cached texture is destroyed, and no texture, let alone
    one with a new identity, takes its place. *)
Lemma failed_allocation_drops_texture :
  let tex := sample_frame 1280 720 DXGI_FORMAT_B8G8R8A8_UNORM 7 in
  let out := copy_texture (H:=sample_headers) (sample_update_env tex None)
               sample_session sample_device tex in
  texture sample_session = Some sample_texture
  /\ gs_texture_2d.width sample_texture <> Width (GetDesc tex)
  /\ out.2 = [ev_delete_texture 3; ev_gs_texture_create 1280 720 5 None]
  /\ ~ exists t', texture out.1.1 = Some t'
                  /\ gs_texture_2d.id t' <> gs_texture_2d.id sample_texture.
Proof.
  simpl. split_and!; [done|done|done|]. intros (t' & Ht' & _). discriminate.
Qed.

(** C5, as stated, in the cycle after a captured frame: the session has a
    cached texture and a preview, [reset_duplicators] has opened the new
    cycle, and the provider has no new frame. The call polls the provider and
    presents nothing. *)
Lemma idle_cycle_polls_and_presents_nothing :
  let w := reset_duplicators sample_capturing_world in
  let d := set_updated false sample_session in
  heap w !! 2%nat = Some d
  /\ is_Some (texture d)
  /\ preview_attached d = true
  /\ env_AcquireNextFrame sample_idle_env = DXGI_ERROR_WAIT_TIMEOUT
  /\ gs_duplicator_update_frame (H:=sample_headers) sample_idle_env d (device w)
     = (true, d, device w, [ev_AcquireNextFrame 0 DXGI_ERROR_WAIT_TIMEOUT]).
Proof.
  intros w d. split_and!; [by vm_compute|by eexists|by vm_compute..].
Qed.

(** C8, as stated, at a present that draws: the viewport and the render target
    bound on the context are those of the preview afterwards, not the ones
    found. *)
Lemma present_leaves_viewport_overwritten :
  let e := sample_update_env (sample_frame 1920 1080 DXGI_FORMAT_B8G8R8A8_UNORM 7) None in
  let out := PresentFrame (H:=sample_headers) e sample_session sample_device in
  viewport sample_device = {| vp_x := 10; vp_y := 20; vp_cx := 300; vp_cy := 200 |}
  /\ viewport out.1.2 = {| vp_x := 0; vp_y := 0; vp_cx := 960; vp_cy := 540 |}
  /\ viewport out.1.2 <> viewport sample_device
  /\ context_render_target out.1.2 <> context_render_target sample_device
  /\ curSwapChain out.1.2 = curSwapChain sample_device.
Proof. vm_compute. split_and!; done. Qed.

(** C10, as stated, at a failed allocation: the poll acquires a frame, the
    flag is set, and the session holds no texture at all. *)
Lemma fresh_flag_without_texture :
  let d := set_updated false sample_session in
  let e := sample_update_env (sample_frame 1280 720 DXGI_FORMAT_B8G8R8A8_UNORM 7) None in
  let out := gs_duplicator_update_frame (H:=sample_headers) e d sample_device in
  updated d = false
  /\ frame_acquired (trace_of out) = true
  /\ returned out = true
  /\ updated (session_after out) = true
  /\ texture (session_after out) = None.
Proof. vm_compute. split_and!; done. Qed.

(** ** Further properties of the code *)

Section Construction.
Context `{GraphicsHeaders}.

Lemma get_monitor_cases hr :
  (get_monitor hr = inr true /\ FAILED hr = false)
  \/ (get_monitor hr = inr false /\ hr = DXGI_ERROR_NOT_FOUND)
  \/ (get_monitor hr = inl (throw_HRError (mkHRError "Failed to get output" hr))
      /\ FAILED hr = true /\ hr <> DXGI_ERROR_NOT_FOUND).
Proof.
  unfold get_monitor. destruct (FAILED hr) eqn:Hf; [|by left]. right.
  destruct (Z.eqb_spec hr DXGI_ERROR_NOT_FOUND); [by left|by right].
Qed.

Lemma Start_duplication_handle e h is_hdr nits :
  Start_duplication e = inr (h, is_hdr, nits) -> h = env_duplication e.
Proof.
  unfold Start_duplication.
  destruct (get_monitor (env_EnumOutputs e)) as [?|[|]]; simpl; [done| |done].
  repeat case_match; intros [= <- <- <-]; done.
Qed.


Lemma float_of_integer_rounds : float_of_integer 16777217 = 16777216.
Proof. reflexivity. Qed.


(** What [Start] throws before it reaches [CreateDisplayWindow]. *)
Lemma Start_duplication_exceptions e :
  (Start_duplication e = inl (throw_str "Invalid monitor index")
   <-> env_EnumOutputs e = DXGI_ERROR_NOT_FOUND)
  /\ (forall msg, Start_duplication e = inl (throw_str msg) ->
        msg = "Invalid monitor index"%string)
  /\ (forall str hr, Start_duplication e = inl (throw_HRError (mkHRError str hr)) ->
        FAILED hr = true
        /\ (hr = env_EnumOutputs e \/ hr = env_DuplicateOutput1 e
            \/ hr = env_QueryInterface_Output1 e \/ hr = env_DuplicateOutput e)).
Proof.
  unfold Start_duplication.
  destruct (get_monitor_cases (env_EnumOutputs e))
    as [[-> Hf]|[[-> Hnf]|[-> [Hf Hne]]]]; simpl.
  - assert (Hne : env_EnumOutputs e <> DXGI_ERROR_NOT_FOUND).
    { intros Heq. by rewrite Heq in Hf. }
    destruct (SUCCEEDED (env_QueryInterface_Output5 e)).
    + destruct (FAILED (env_DuplicateOutput1 e)) eqn:H1.
      * split_and!; [split; [done|contradiction] | done |].
        intros str hr [= <- <-]. split; [done|]. by right; left.
      * destruct (SUCCEEDED (env_GetDesc e));
          (split_and!; [split; [done|contradiction] | done | done]).
    + destruct (FAILED (env_QueryInterface_Output1 e)) eqn:H1.
      * split_and!; [split; [done|contradiction] | done |].
        intros str hr [= <- <-]. split; [done|]. by right; right; left.
      * destruct (FAILED (env_DuplicateOutput e)) eqn:H2.
        -- split_and!; [split; [done|contradiction] | done |].
           intros str hr [= <- <-]. split; [done|]. by right; right; right.
        -- split_and!; [split; [done|contradiction] | done | done].
  - split_and!; [done| |done]. by intros msg [= <-].
  - split_and!; [split; [done|contradiction] | done |].
    intros str hr [= <- <-]. split; [done|]. by left.
Qed.

(** What [CreateDisplayWindow] can do to the device and to the class flag. *)
Lemma CreateDisplayWindow_effects e dev reg :
  let out := CreateDisplayWindow e dev reg in
  (reg = true -> out.1.2 = true)
  /\ match out.1.1.1 with
     | inr (Some hwnd, Some sc) =>
         sc_id sc = next_obj dev /\ out.1.1.2 = bump_next_obj dev
     | inr (None, None) => out.1.1.2 = dev
     | inr _ => False
     | inl _ => out.1.1.2 = dev
     end.
Proof.
  unfold CreateDisplayWindow, RegisterDisplayWindowClass.
  destruct reg; simpl.
  - destruct (get_monitor (env_EnumOutputs_window e)) as [?|[|]]; simpl; [done| |done].
    destruct (FAILED (env_GetDesc_window e)); simpl; [done|].
    destruct (env_CreateWindowW e); simpl; [|done].
    destruct (env_new_swap_chain e _) as [[?|?]|[[??]?]]; simpl; done.
  - destruct (negb (env_RegisterClassW e)); simpl; [done|].
    destruct (get_monitor (env_EnumOutputs_window e)) as [?|[|]]; simpl; [done| |done].
    destruct (FAILED (env_GetDesc_window e)); simpl; [done|].
    destruct (env_CreateWindowW e); simpl; [|done].
    destruct (env_new_swap_chain e _) as [[?|?]|[[??]?]]; simpl; done.
Qed.

Lemma gs_duplicator_new_effects e dev reg monitor_idx :
  let out := gs_duplicator_new e dev reg monitor_idx in
  (reg = true -> out.1.2 = true)
  /\ (next_obj dev <= next_obj out.1.1.2)%nat
  /\ match out.1.1.1 with
     | inr d =>
         duplicator d = Some (env_duplication e)
         /\ texture d = None /\ color_space d = GS_CS_SRGB
         /\ idx d = monitor_idx /\ refs d = 1 /\ updated d = false
         /\ match displayWindow d, displaySwapChain d with
            | Some _, Some sc =>
                sc_id sc = next_obj dev /\ out.1.1.2 = bump_next_obj dev
            | None, None => out.1.1.2 = dev
            | _, _ => False
            end
     | inl _ => out.1.1.2 = dev
     end.
Proof.
  unfold gs_duplicator_new.
  destruct (Start_duplication e) as [ex|[[dup is_hdr] nits]] eqn:Hs; simpl; [done|].
  apply Start_duplication_handle in Hs as ->.
  pose proof (CreateDisplayWindow_effects e dev reg) as [Hreg Hcases].
  destruct (CreateDisplayWindow e dev reg) as [[[[ex|[hwnd sc]] dev'] reg'] tr];
    simpl in *.
  - subst dev'. done.
  - split; [done|].
    destruct hwnd, sc; try done.
    + destruct Hcases as [Hid ->]. simpl. split_and!; done || lia.
    + subst dev'. simpl. split_and!; done.
Qed.

(** X3. A session that was constructed starts with one reference, the flag
    clear, no cached texture, the standard color space, the monitor it was
    asked for and the provider's handle. Its preview is complete or absent:
    it has a window exactly when it has a swap chain. *)
Theorem new_session_initial_state e dev reg monitor_idx d dev' reg' tr :
  gs_duplicator_new e dev reg monitor_idx = (inr d, dev', reg', tr) ->
  refs d = 1 /\ updated d = false /\ texture d = None
  /\ color_space d = GS_CS_SRGB /\ idx d = monitor_idx
  /\ duplicator d = Some (env_duplication e)
  /\ (is_Some (displayWindow d) <-> is_Some (displaySwapChain d)).
Proof.
  intros Hnew.
  pose proof (gs_duplicator_new_effects e dev reg monitor_idx) as (_ & _ & Hd).
  rewrite Hnew in Hd. simpl in Hd.
  destruct Hd as (Hdup & Htex & Hcs & Hidx & Hrefs & Hupd & Hpreview).
  split_and!; try done.
  destruct (displayWindow d), (displaySwapChain d); try done.
  all: split; intros [? ?]; done.
Qed.

(** X4. Trouble with the preview does not stop the capture. Once the
    duplication is set up, the session is constructed unless enumerating the
    output again throws or the swap chain constructor throws something that
    is not an [HRError]; and when the window class cannot be registered, the
    output is gone, its description cannot be read, the window cannot be
    created or the swap chain constructor throws an [HRError], the session
    simply has no preview. *)
Theorem preview_failure_is_not_fatal e dev reg monitor_idx x :
  Start_duplication e = inr x ->
  FAILED (env_EnumOutputs_window e) = false
    \/ env_EnumOutputs_window e = DXGI_ERROR_NOT_FOUND ->
  (forall init msg, env_new_swap_chain e init <> inl (throw_str msg)) ->
  exists d,
    (gs_duplicator_new e dev reg monitor_idx).1.1.1 = inr d
    /\ ((reg = false /\ env_RegisterClassW e = false)
        \/ env_EnumOutputs_window e = DXGI_ERROR_NOT_FOUND
        \/ FAILED (env_GetDesc_window e) = true
        \/ env_CreateWindowW e = None
        \/ (exists hwnd err,
              env_CreateWindowW e = Some hwnd
              /\ env_new_swap_chain e (display_init_data e hwnd)
                 = inl (throw_HRError err)) ->
        displayWindow d = None /\ displaySwapChain d = None).
Proof.
  intros Hs Henum Hstr. unfold gs_duplicator_new. rewrite Hs.
  destruct x as [[dup is_hdr] nits].
  unfold CreateDisplayWindow, RegisterDisplayWindowClass.
  assert (Hmon : get_monitor (env_EnumOutputs_window e) = inr true
                 /\ env_EnumOutputs_window e <> DXGI_ERROR_NOT_FOUND
                 \/ get_monitor (env_EnumOutputs_window e) = inr false).
  { destruct (get_monitor_cases (env_EnumOutputs_window e))
      as [[Hg Hf]|[[Hg Hnf]|[Hg [Hf Hne]]]].
    - left. split; [done|]. intros Heq. by rewrite Heq in Hf.
    - by right.
    - destruct Henum as [Hok|Hnf]; congruence. }
  assert (Hflag : (if reg then (true, reg, @nil event)
                   else if negb (env_RegisterClassW e)
                        then (false, reg,
                              [ev_blog LOG_ERROR "Failed to register display window class"])
                        else (true, true, []))
                  = (negb (negb reg && negb (env_RegisterClassW e)),
                     reg || env_RegisterClassW e,
                     if negb reg && negb (env_RegisterClassW e)
                     then [ev_blog LOG_ERROR "Failed to register display window class"]
                     else [])).
  { by destruct reg, (env_RegisterClassW e). }
  rewrite Hflag. clear Hflag.
  destruct (negb reg && negb (env_RegisterClassW e)) eqn:Hreg; simpl.
  { eexists. split; [done|]. done. }
  assert (Hnoreg : ~ (reg = false /\ env_RegisterClassW e = false)).
  { intros [-> Hr]. by rewrite Hr in Hreg. }
  destruct Hmon as [[-> Hne]| ->]; simpl.
  2: { eexists. split; [done|]. done. }
  destruct (FAILED (env_GetDesc_window e)) eqn:Hdesc; simpl.
  { eexists. split; [done|]. done. }
  destruct (env_CreateWindowW e) as [hwnd|] eqn:Hwnd; simpl.
  2: { eexists. split; [done|]. done. }
  fold (display_init_data e hwnd).
  destruct (env_new_swap_chain e (display_init_data e hwnd))
    as [[msg|err]|[[tgt waitable] sw]] eqn:Hsc; simpl.
  - by destruct (Hstr (display_init_data e hwnd) msg).
  - eexists. split; [done|]. done.
  - eexists. split; [done|]. simpl.
    intros [?|[?|[?|[?|(hwnd' & err & Hw' & Herr)]]]]; try done.
    simplify_eq. congruence.
Qed.

(** X5. A window whose swap chain cannot be created is not left behind: when
    everything up to [CreateWindowW] succeeds and the swap chain constructor
    throws an [HRError], [CreateDisplayWindow] logs, destroys the window it
    has just created without ever showing it, allocates nothing on the
    device and leaves the session without preview. *)
Theorem failed_swap_chain_destroys_window e dev reg hwnd err :
  reg = true \/ env_RegisterClassW e = true ->
  FAILED (env_EnumOutputs_window e) = false ->
  FAILED (env_GetDesc_window e) = false ->
  env_CreateWindowW e = Some hwnd ->
  env_new_swap_chain e (display_init_data e hwnd) = inl (throw_HRError err) ->
  CreateDisplayWindow e dev reg
  = (inr (None, None), dev, true,
     [ev_blog LOG_ERROR "Failed to create swap chain"; ev_DestroyWindow hwnd]).
Proof.
  intros Hreg Henum Hdesc Hwnd Hsc.
  unfold CreateDisplayWindow, RegisterDisplayWindowClass, get_monitor.
  rewrite Henum, Hdesc, Hwnd. fold (display_init_data e hwnd). 
  destruct reg.
  - simpl. fold (display_init_data e hwnd). by rewrite Hsc.
  - destruct Hreg as [?|Hr]; [done|]. rewrite Hr. simpl.
    fold (display_init_data e hwnd). by rewrite Hsc.
Qed.

Lemma Start_duplication_found e x :
  Start_duplication e = inr x -> FAILED (env_EnumOutputs e) = false.
Proof.
  unfold Start_duplication.
  by destruct (get_monitor_cases (env_EnumOutputs e))
    as [[-> Hf]|[[-> _]|[-> _]]].
Qed.

(** What escapes from [CreateDisplayWindow]. *)
Lemma CreateDisplayWindow_exceptions e dev reg :
  match (CreateDisplayWindow e dev reg).1.1.1 with
  | inl (throw_str msg) =>
      exists hwnd,
        env_CreateWindowW e = Some hwnd
        /\ env_new_swap_chain e (display_init_data e hwnd) = inl (throw_str msg)
  | inl (throw_HRError (mkHRError str hr)) =>
      hr = env_EnumOutputs_window e /\ FAILED hr = true
  | inr _ => True
  end.
Proof.
  unfold CreateDisplayWindow.
  destruct (RegisterDisplayWindowClass e reg) as [[ok reg'] tr].
  destruct ok; simpl; [|done].
  destruct (get_monitor_cases (env_EnumOutputs_window e))
    as [[-> Hf]|[[-> _]|[-> [Hf _]]]]; simpl; [|done..].
  destruct (FAILED (env_GetDesc_window e)); simpl; [done|].
  destruct (env_CreateWindowW e) as [hwnd|]; simpl; [|done].
  fold (display_init_data e hwnd).
  destruct (env_new_swap_chain e (display_init_data e hwnd))
    as [[msg|[str hr]]|[[tgt waitable] sw]] eqn:Hsc; simpl; [|done..].
  by exists hwnd.
Qed.

(** X2. What the constructor ([Start], with the [CreateDisplayWindow] it
    calls) throws. A string is either "Invalid monitor index", thrown for an
    index the adapter answers with [DXGI_ERROR_NOT_FOUND] and always then, or
    what the swap chain constructor threw for the window just created. An
    [HRError] always carries a failing [HRESULT], the one of the call that
    failed: one of the two output enumerations, the two duplication calls or
    the query for [IDXGIOutput1]. *)
Theorem Start_exceptions e dev reg monitor_idx :
  match (gs_duplicator_new e dev reg monitor_idx).1.1.1 with
  | inl (throw_str msg) =>
      (msg = "Invalid monitor index"%string
       /\ env_EnumOutputs e = DXGI_ERROR_NOT_FOUND)
      \/ (exists hwnd,
            env_CreateWindowW e = Some hwnd
            /\ env_new_swap_chain e (display_init_data e hwnd) = inl (throw_str msg))
  | inl (throw_HRError (mkHRError str hr)) =>
      FAILED hr = true
      /\ (hr = env_EnumOutputs e \/ hr = env_DuplicateOutput1 e
          \/ hr = env_QueryInterface_Output1 e \/ hr = env_DuplicateOutput e
          \/ hr = env_EnumOutputs_window e)
  | inr _ => FAILED (env_EnumOutputs e) = false
  end
  /\ (env_EnumOutputs e = DXGI_ERROR_NOT_FOUND ->
      (gs_duplicator_new e dev reg monitor_idx).1.1.1
      = inl (throw_str "Invalid monitor index")).
Proof.
  pose proof (Start_duplication_exceptions e) as (Hinv & Hstr & Hhr).
  unfold gs_duplicator_new.
  destruct (Start_duplication e) as [ex|[[dup is_hdr] nits]] eqn:Hs; simpl.
  - split.
    + destruct ex as [msg|[str hr]].
      * left. rewrite (Hstr msg eq_refl) in *. split; [done|]. by apply Hinv.
      * destruct (Hhr str hr eq_refl) as [Hf Hwhich]. split; [done|].
        destruct Hwhich as [?|[?|[?|?]]]; auto.
    + intros Hnf. apply Hinv in Hnf. congruence.
  - pose proof (Start_duplication_found e _ Hs) as Hfound.
    pose proof (CreateDisplayWindow_exceptions e dev reg) as Hcdw.
    split.
    + destruct (CreateDisplayWindow e dev reg) as [[[[ex|[hwnd sc]] dev'] reg'] tr];
        simpl in *; [|done].
      destruct ex as [msg|[str hr]].
      * by right.
      * destruct Hcdw as [-> Hf]. split; [done|]. do 4 right. done.
    + intros Hnf. rewrite Hnf in Hfound. done.
Qed.

End Construction.

Section RegistryInvariant.
Context `{GraphicsHeaders}.

Lemma registry_wf_empty dev reg :
  registry_wf {| instances := ∅; heap := ∅; device := dev; registered := reg |}.
Proof. split; simpl; intros ??; by rewrite lookup_empty. Qed.

(** X6. [device_duplicator_create] keeps the process well formed, whether it
    shares a session, constructs one or fails to, as long as the reference
    count of a shared session is below the largest [long]. *)
Theorem create_keeps_registry_wf e monitor_idx w :
  registry_wf w ->
  (forall p d, instances w !! monitor_idx = Some p -> heap w !! p = Some d ->
     refs d < 2 ^ 31 - 1) ->
  registry_wf (device_duplicator_create e monitor_idx w).1.2.
Proof.
  intros [Hreg Hlive] Hroom. unfold device_duplicator_create.
  destruct (instances w !! monitor_idx) as [p|] eqn:Hi.
  - (* shared *)
    destruct (Hreg _ _ Hi) as (d & Hd & Hidx).
    split; simpl.
    + intros i q Hq. destruct (decide (q = p)) as [->|Hne].
      * rewrite lookup_alter_eq, Hd. simpl. eexists. split; [done|]. simpl.
        destruct (Hreg _ _ Hq) as (d' & Hd' & Hidx'). congruence.
      * rewrite lookup_alter_ne by done. by apply Hreg.
    + intros q dq. destruct (decide (q = p)) as [->|Hne].
      * rewrite lookup_alter_eq, Hd. simpl. intros [= <-]. simpl.
        destruct (Hlive _ _ Hd) as (Hinst & Hrefs & Hser & Htex).
        pose proof (Hroom p d eq_refl Hd).
        rewrite to_int32_small by lia. split_and!; [done|lia|lia|done|done].
      * rewrite lookup_alter_ne by done. apply Hlive.
  - (* constructed, or not *)
    pose proof (gs_duplicator_new_effects e (bump_next_obj (device w)) (registered w)
                  monitor_idx) as (_ & Hmono & Hd).
    simpl in Hmono.
    assert (Hfresh : heap w !! next_obj (device w) = None).
    { destruct (heap w !! next_obj (device w)) as [d|] eqn:Hd'; [|done].
      destruct (Hlive _ _ Hd') as (_ & _ & Hser & _). lia. }
    assert (Hkeep : forall dev',
      (S (next_obj (device w)) <= next_obj dev')%nat ->
      forall reg',
      registry_wf {| instances := instances w; heap := heap w;
                     device := dev'; registered := reg' |}).
    { intros dev' Hdev' reg'. split; simpl; [done|].
      intros q dq Hq. destruct (Hlive _ _ Hq) as (Hinst & Hrefs & Hser & Htex).
      split_and!; [done|lia|lia|lia|]. intros t Ht. specialize (Htex t Ht). lia. }
    destruct (gs_duplicator_new _ _ _ _) as [[[[ex|d] dev'] reg'] tr]; simpl in *.
    { destruct ex as [msg|[str hr]]; simpl; by apply Hkeep. }
    destruct Hd as (_ & Htex & _ & Hidx & Hrefs & _).
    split; simpl.
    + intros i q Hq. destruct (decide (i = monitor_idx)) as [->|Hne].
      * rewrite lookup_insert_eq in Hq. simplify_eq.
        rewrite lookup_insert_eq. by eexists.
      * rewrite lookup_insert_ne in Hq by done.
        destruct (Hreg _ _ Hq) as (dq & Hdq & Hidxq).
        rewrite lookup_insert_ne by congruence. by eexists.
    + intros q dq Hq. destruct (decide (q = next_obj (device w))) as [->|Hne].
      * rewrite lookup_insert_eq in Hq. simplify_eq.
        rewrite lookup_insert_eq, Htex, Hrefs. split_and!; [done|lia|lia|lia|done].
      * rewrite lookup_insert_ne in Hq by done.
        destruct (Hlive _ _ Hq) as (Hinst & Hrefs' & Hser & Htex').
        rewrite lookup_insert_ne by congruence.
        split_and!; [done|lia|lia|lia|]. intros t Ht. specialize (Htex' t Ht). lia.
Qed.

(** X7. [gs_duplicator_destroy] on the pointer of a live session keeps the
    process well formed and does one of two things. A session with more than
    one reference loses one, and nothing is destroyed or erased. The last
    reference takes away the session and its registry entry together, and
    the destructor runs. *)
Theorem destroy_keeps_registry_wf p w d :
  registry_wf w ->
  heap w !! p = Some d ->
  let out := gs_duplicator_destroy p w in
  registry_wf out.1
  /\ instances w !! idx d = Some p
  /\ if refs d =? 1 then
       instances out.1 = delete (idx d) (instances w)
       /\ heap out.1 = delete p (heap w)
       /\ out.2 = gs_duplicator_delete (set_refs 0 d)
     else
       instances out.1 = instances w
       /\ heap out.1 = <[p := set_refs (refs d - 1) d]> (heap w)
       /\ out.2 = [].
Proof.
  intros [Hreg Hlive] Hd out. subst out. unfold gs_duplicator_destroy. rewrite Hd.
  destruct (Hlive _ _ Hd) as (Hinst & Hrefs & Hser & Htex).
  rewrite to_int32_small by lia.
  destruct (Z.eqb_spec (refs d) 1) as [H1|H1].
  - rewrite H1. simpl. split; [|done]. split; simpl.
    + intros i q Hq. apply lookup_delete_Some in Hq as [Hne Hq].
      destruct (Hreg _ _ Hq) as (dq & Hdq & Hidxq).
      exists dq. split; [|done]. rewrite lookup_delete_ne; [done|].
      intros <-. congruence.
    + intros q dq Hq. apply lookup_delete_Some in Hq as [Hne Hq].
      destruct (Hlive _ _ Hq) as (Hinstq & Hrefsq & Hserq & Htexq).
      split_and!; try done; try lia. rewrite lookup_delete_ne; [done|].
      intros Heq. rewrite Heq in Hinst. congruence.
  - destruct (Z.eqb_spec (refs d - 1) 0) as [Hz|Hnz]; [lia|]. simpl.
    split; [|done]. split; simpl.
    + intros i q Hq. destruct (decide (q = p)) as [->|Hne].
      * rewrite lookup_insert_eq. eexists. split; [done|]. simpl.
        destruct (Hreg _ _ Hq) as (d' & Hd' & Hidx'). congruence.
      * rewrite lookup_insert_ne by done. by apply Hreg.
    + intros q dq. destruct (decide (q = p)) as [->|Hne].
      * rewrite lookup_insert_eq. intros [= <-]. simpl.
        split_and!; [done|lia|lia|done|done].
      * rewrite lookup_insert_ne by done. apply Hlive.
Qed.

(** X8. Acquiring one monitor leaves the others alone: the registry entries
    of the other monitors and the sessions they point to are exactly what
    they were. *)
Theorem create_leaves_other_monitors e monitor_idx w j :
  registry_wf w ->
  j <> monitor_idx ->
  let w' := (device_duplicator_create e monitor_idx w).1.2 in
  instances w' !! j = instances w !! j
  /\ forall q, instances w !! j = Some q -> heap w' !! q = heap w !! q.
Proof.
  intros [Hreg Hlive] Hj. unfold device_duplicator_create.
  destruct (instances w !! monitor_idx) as [p|] eqn:Hi; simpl.
  - split; [done|]. intros q Hq. apply lookup_alter_ne.
    intros <-. destruct (Hreg _ _ Hi) as (d & Hd & Hidx).
    destruct (Hreg _ _ Hq) as (d' & Hd' & Hidx'). congruence.
  - destruct (gs_duplicator_new _ _ _ _) as [[[[ex|d] dev'] reg'] tr]; simpl.
    { destruct ex as [msg|[str hr]]; simpl; done. }
    split; [by apply lookup_insert_ne|].
    intros q Hq. apply lookup_insert_ne.
    destruct (Hreg _ _ Hq) as (dq & Hdq & _).
    destruct (Hlive _ _ Hdq) as (_ & _ & Hser & _). lia.
Qed.


(** X10. Acquire and release undo each other: after a successful
    [device_duplicator_create], [gs_duplicator_destroy] on the pointer it
    returned brings the registry and the sessions back to exactly what they
    were, for a shared session (one reference more, one less) as for a new one
    (constructed, then destroyed). *)
Theorem acquire_then_release_restores e monitor_idx w p :
  registry_wf w ->
  (forall q d, instances w !! monitor_idx = Some q -> heap w !! q = Some d ->
     refs d < 2 ^ 31 - 1) ->
  (device_duplicator_create e monitor_idx w).1.1 = Some p ->
  let w1 := (device_duplicator_create e monitor_idx w).1.2 in
  let w2 := (gs_duplicator_destroy p w1).1 in
  instances w2 = instances w /\ heap w2 = heap w.
Proof.
  intros [Hreg Hlive] Hroom. unfold device_duplicator_create.
  destruct (instances w !! monitor_idx) as [q|] eqn:Hi; simpl.
  - intros [= ->]. destruct (Hreg _ _ Hi) as (d & Hd & Hidx).
    destruct (Hlive _ _ Hd) as (_ & Hrefs & _).
    pose proof (Hroom p d eq_refl Hd).
    unfold gs_duplicator_destroy. simpl.
    rewrite lookup_alter_eq, Hd. simpl.
    rewrite (to_int32_small (refs d + 1)) by lia.
    replace (refs d + 1 - 1) with (refs d) by lia.
    rewrite to_int32_small by lia.
    destruct (Z.eqb_spec (refs d) 0); [lia|]. simpl. split; [done|].
    rewrite set_refs_set_refs, set_refs_refs, insert_alter_eq.
    by apply insert_id.
  - pose proof (gs_duplicator_new_effects e (bump_next_obj (device w)) (registered w)
                  monitor_idx) as (_ & _ & Hd).
    destruct (gs_duplicator_new _ _ _ _) as [[[[ex|d] dev'] reg'] tr]; simpl in *.
    { destruct ex as [msg|[str hr]]; simpl; done. }
    intros [= <-]. destruct Hd as (_ & _ & _ & Hidx & Hrefs & _).
    assert (Hfresh : heap w !! next_obj (device w) = None).
    { destruct (heap w !! next_obj (device w)) as [d'|] eqn:Hd'; [|done].
      destruct (Hlive _ _ Hd') as (_ & _ & Hser & _). lia. }
    unfold gs_duplicator_destroy. simpl.
    rewrite lookup_insert_eq, Hrefs, Hidx. simpl.
    rewrite !delete_insert_eq. split; by apply delete_id.
Qed.

(** X11. A monitor acquired again after its last release gets a new session:
    the registry entry and the old session are gone in between, and the
    pointer returned by the second construction is a later serial than the
    first. *)
Theorem reacquire_is_new_session e e' monitor_idx w d0 :
  instances w !! monitor_idx = None ->
  (gs_duplicator_new e (bump_next_obj (device w)) (registered w) monitor_idx).1.1.1
    = inr d0 ->
  let p := next_obj (device w) in
  let w1 := (device_duplicator_create e monitor_idx w).1.2 in
  let w2 := (gs_duplicator_destroy p w1).1 in
  instances w2 !! monitor_idx = None
  /\ heap w2 !! p = None
  /\ forall p', (device_duplicator_create e' monitor_idx w2).1.1 = Some p' ->
                (p < p')%nat.
Proof.
  intros Hi Hnew p w1 w2.
  destruct (create_new e monitor_idx w d0 Hi Hnew) as [_ Hreg].
  fold p w1 in Hreg.
  destruct (destroy_last p monitor_idx w1 d0 Hreg) as (w' & Hd & Hgone & Hfreed).
  assert (Hw2 : w2 = w') by (subst w2; by rewrite Hd). rewrite Hw2.
  split_and!; [done|done|].
  assert (Hdev : (p < next_obj (device w'))%nat).
  { assert (Hdev1 : (p < next_obj (device w1))%nat).
    { subst w1 p. unfold device_duplicator_create. rewrite Hi.
      pose proof (gs_duplicator_new_effects e (bump_next_obj (device w)) (registered w)
                    monitor_idx) as (_ & Hmono & _).
      destruct (gs_duplicator_new _ _ _ _) as [[[[ex|d] dev'] reg'] tr];
        simpl in *; [done|lia]. }
    assert (Hsame : device w' = device w1).
    { revert Hd. unfold gs_duplicator_destroy.
      destruct (heap w1 !! p); [|by intros [= <-]].
      destruct (_ =? 0); by intros [= <- _]. }
    by rewrite Hsame. }
  intros p'. unfold device_duplicator_create. rewrite Hgone.
  destruct (gs_duplicator_new e' (bump_next_obj (device w')) (registered w') monitor_idx)
    as [[[[ex|d] dev'] reg'] tr]; simpl.
  { destruct ex as [msg|[str hr]]; simpl; done. }
  intros [= <-]. done.
Qed.

(** X12. The window class is registered once per process: once the flag
    [registered] is set, no call of [device_duplicator_create] clears it,
    whatever the outcome of the call. *)
Theorem window_class_stays_registered e monitor_idx w :
  registered w = true ->
  registered (device_duplicator_create e monitor_idx w).1.2 = true.
Proof.
  intros Hreg. unfold device_duplicator_create.
  destruct (instances w !! monitor_idx); simpl; [done|].
  pose proof (gs_duplicator_new_effects e (bump_next_obj (device w)) (registered w)
                monitor_idx) as (Hflag & _).
  destruct (gs_duplicator_new _ _ _ _) as [[[[ex|d] dev'] reg'] tr]; simpl in *.
  - destruct ex as [msg|[str hr]]; simpl; auto.
  - auto.
Qed.

End RegistryInvariant.

Section Updates.
Context `{GraphicsHeaders}.

(** The three ways a call of [gs_duplicator_update_frame] can go: it returns
    with session and device untouched, it re-presents, or it caches a frame. *)
Lemma update_frame_cases e d dev :
  let out := gs_duplicator_update_frame e d dev in
  let poll := ev_AcquireNextFrame 0 (env_AcquireNextFrame e) in
  (exists r tr,
     out = (r, d, dev, tr)
     /\ (frame_acquired tr = false \/ FAILED (env_QueryInterface e) = true)
     /\ (tr = [] \/ tr = [poll]
         \/ tr = [poll; ev_blog LOG_ERROR "gs_duplicator_update_frame: Failed to update frame"]
         \/ tr = [poll; ev_QueryInterface_Texture2D (env_QueryInterface e);
                  ev_blog LOG_ERROR "gs_duplicator_update_frame: Failed to query ID3D11Texture2D";
                  ev_ReleaseFrame]))
  \/ (preview_attached d && bool_decide (is_Some (texture d)) && updated d = true
      /\ out = (true, (PresentFrame e d dev).1.1, (PresentFrame e d dev).1.2,
                (PresentFrame e d dev).2))
  \/ (FAILED (env_AcquireNextFrame e) = false
      /\ FAILED (env_QueryInterface e) = false
      /\ let c := copy_texture e d dev (env_frame e) in
         let d2 := set_updated true c.1.1 in
         let pf := if preview_attached d2 then PresentFrame e d2 c.1.2
                   else (d2, c.1.2, []) in
         out = (true, pf.1.1, pf.1.2,
                [poll; ev_QueryInterface_Texture2D (env_QueryInterface e)]
                ++ c.2 ++ [ev_ReleaseFrame] ++ pf.2)).
Proof.
  intros out poll. subst out poll.
  destruct (duplicator d) as [h|] eqn:Hd.
  2: { left. unfold gs_duplicator_update_frame. rewrite Hd. eexists _, _.
       split; [done|]. split; by left. }
  destruct (preview_attached d && bool_decide (is_Some (texture d)) && updated d) eqn:Hb.
  { right. left. split; [done|]. by apply (update_frame_represent e d dev h). }
  unfold gs_duplicator_update_frame. rewrite Hd, Hb.
  destruct (Z.eqb_spec (env_AcquireNextFrame e) DXGI_ERROR_ACCESS_LOST) as [Hl|_].
  { left. eexists _, _. split; [done|]. unfold frame_acquired. simpl. rewrite Hl.
    split; [by left|]. right. by left. }
  destruct (Z.eqb_spec (env_AcquireNextFrame e) DXGI_ERROR_WAIT_TIMEOUT) as [Ht|_].
  { left. eexists _, _. split; [done|]. unfold frame_acquired. simpl. rewrite Ht.
    split; [by left|]. right. by left. }
  destruct (FAILED (env_AcquireNextFrame e)) eqn:Hf.
  { left. eexists _, _. split; [done|]. unfold frame_acquired. simpl.
    rewrite SUCCEEDED_FAILED, Hf.
    split; [by left|]. right. right. by left. }
  destruct (FAILED (env_QueryInterface e)).
  { left. eexists _, _. split; [done|]. split; [by right|]. right. right. by right. }
  right. right. split; [done|]. split; [done|].
  destruct (copy_texture e d dev (env_frame e)) as [[d1 dev1] tr1]. simpl.
  destruct (preview_attached (set_updated true d1)); [|done].
  by destruct (PresentFrame e (set_updated true d1) dev1) as [[??]?].
Qed.

Lemma same_identity_refl d : same_identity d d.
Proof. by repeat split. Qed.

Lemma same_identity_trans d1 d2 d3 :
  same_identity d1 d2 -> same_identity d2 d3 -> same_identity d1 d3.
Proof.
  unfold same_identity. intros (?&?&?&?&?&?&?) (?&?&?&?&?&?&?).
  split_and!; congruence.
Qed.

(** What [PresentFrame] leaves alone. *)
Lemma PresentFrame_frame e d dev :
  let out := PresentFrame e d dev in
  same_identity d out.1.1
  /\ texture out.1.1 = texture d
  /\ updated out.1.1 = updated d
  /\ color_space out.1.1 = color_space d
  /\ next_obj out.1.2 = next_obj dev
  /\ curSwapChain out.1.2 = curSwapChain dev.
Proof.
  unfold PresentFrame.
  destruct (displayWindow d) eqn:Hw; [|by repeat split].
  destruct (displaySwapChain d) as [sc|] eqn:Hsc; [|by repeat split].
  destruct (texture d) as [tex|] eqn:Ht; [|by repeat split].
  destruct (gs_texture_2d.texture tex) as [src|]; [|by repeat split].
  destruct (negb (env_IsWindowVisible e)); [by repeat split|].
  destruct (_ || _); [by repeat split|].
  assert (Hid : forall sc', (present_resize e sc (windowWidth (env_GetClientRect e))
                               (windowHeight (env_GetClientRect e))).1 = inl sc'
                            \/ (present_resize e sc (windowWidth (env_GetClientRect e))
                                  (windowHeight (env_GetClientRect e))).1 = inr sc' ->
                            sc_id sc' = sc_id sc).
  { intros sc'. unfold present_resize.
    destruct (_ || _); [destruct (env_Resize e sc _ _ GS_BGRA) as [[?|] ?]|];
      simpl; intros [[= <-]|[= <-]]; done. }
  destruct (present_resize _ _ _ _) as [[sc'|sc'] tr]; simpl in Hid.
  - assert (Hdev : next_obj (present_draw sc' tex src dev).1 = next_obj dev
                   /\ curSwapChain (present_draw sc' tex src dev).1 = curSwapChain dev).
    { unfold present_draw, present_commands.
      destruct (gs_texture_2d.renderTarget0 (target sc')); done. }
    destruct (present_draw sc' tex src dev) as [dev' tr']. simpl in *.
    destruct Hdev as [? ?].
    split_and!; try done. unfold same_identity. simpl.
    rewrite Hsc, Hw. simpl. rewrite (Hid sc') by by left. by repeat split.
  - simpl. split_and!; try done. unfold same_identity. simpl.
    rewrite Hsc, Hw. simpl. rewrite (Hid sc') by by right. by repeat split.
Qed.

(** What [copy_texture] leaves alone. *)
Lemma copy_texture_frame e d dev tex :
  let out := copy_texture e d dev tex in
  same_identity d out.1.1
  /\ updated out.1.1 = updated d
  /\ displaySwapChain out.1.1 = displaySwapChain d
  /\ curSwapChain out.1.2 = curSwapChain dev
  /\ viewport out.1.2 = viewport dev
  /\ context_render_target out.1.2 = context_render_target dev
  /\ (next_obj dev <= next_obj out.1.2 <= S (next_obj dev))%nat.
Proof.
  unfold copy_texture, ensure_texture, gs_texture_create.
  destruct (needs_new_texture _ _ _).
  - destruct (env_texture_alloc e); simpl; repeat split; lia.
  - destruct (texture d) eqn:Ht; simpl; rewrite ?Ht; repeat split; lia.
Qed.

Lemma preview_attached_identity d d' :
  same_identity d d' -> preview_attached d' = preview_attached d.
Proof.
  intros (_&_&_&_&_&Hw&Hsc). unfold preview_attached. rewrite Hw.
  f_equal. destruct (displaySwapChain d), (displaySwapChain d'); try done.
Qed.

Lemma polls_no_provider tr :
  Forall (fun ev => is_provider_event ev = false) tr -> polls tr = 0%nat.
Proof.
  unfold polls. induction 1 as [|ev tr Hev _ IH]; [done|].
  rewrite filter_cons. case_decide as Hp; [|done].
  destruct ev; simpl in *; congruence.
Qed.

Lemma polls_app tr1 tr2 : polls (tr1 ++ tr2) = (polls tr1 + polls tr2)%nat.
Proof. unfold polls. by rewrite filter_app, length_app. Qed.

Lemma nonblocking_no_provider tr :
  Forall (fun ev => is_provider_event ev = false) tr -> nonblocking tr.
Proof.
  unfold nonblocking. intros Htr. eapply Forall_impl; [exact Htr|].
  intros ev Hev. destruct ev; simpl in *; done.
Qed.

(** X13. An update never changes who the session is: its capture handle, HDR
    flag and SDR white level (read once at construction), monitor, reference
    count, window and the identity of its swap chain are the same after the
    call, whatever the provider, the GPU and the window system answer. *)
Theorem update_keeps_identity e d dev :
  same_identity d (session_after (gs_duplicator_update_frame e d dev)).
Proof.
  destruct (update_frame_cases e d dev)
    as [(r & tr & -> & _ & _) | [(_ & ->) | (_ & _ & ->)]]; unfold session_after; simpl.
  - apply same_identity_refl.
  - apply PresentFrame_frame.
  - pose proof (copy_texture_frame e d dev (env_frame e)) as (Hid & _).
    destruct (copy_texture e d dev (env_frame e)) as [[d1 dev1] tr1]. simpl in *.
    assert (Hid2 : same_identity d (set_updated true d1)) by done.
    destruct (preview_attached (set_updated true d1)); [|done].
    eapply same_identity_trans; [exact Hid2|]. apply PresentFrame_frame.
Qed.

(** X14. An update never waits and never asks twice: its trace holds at most
    one [AcquireNextFrame], and every [AcquireNextFrame] in it has a timeout
    of zero. *)
Theorem update_polls_at_most_once e d dev :
  let tr := trace_of (gs_duplicator_update_frame e d dev) in
  (polls tr <= 1)%nat /\ nonblocking tr.
Proof.
  destruct (update_frame_cases e d dev)
    as [(r & tr & -> & _ & Htr) | [(_ & ->) | (_ & _ & ->)]]; unfold trace_of; simpl.
  - destruct Htr as [-> | [-> | [-> | ->]]]; split;
      try (unfold polls; simpl; lia); repeat constructor.
  - pose proof (PresentFrame_no_provider e d dev) as Hp.
    rewrite (polls_no_provider _ Hp). split; [lia|].
    by apply nonblocking_no_provider.
  - pose proof (copy_texture_no_provider e d dev (env_frame e)) as Hc.
    destruct (copy_texture e d dev (env_frame e)) as [[d1 dev1] tr1]. simpl in *.
    assert (Hpf : Forall (fun ev => is_provider_event ev = false)
              (if preview_attached (set_updated true d1)
               then PresentFrame e (set_updated true d1) dev1
               else (set_updated true d1, dev1, [])).2).
    { destruct (preview_attached _); [apply PresentFrame_no_provider|constructor]. }
    set (pf := if preview_attached (set_updated true d1)
               then PresentFrame e (set_updated true d1) dev1
               else (set_updated true d1, dev1, [])) in *.
    split.
    + change (?a :: ?b :: tr1 ++ ev_ReleaseFrame :: pf.2)
        with ([a; b] ++ tr1 ++ [ev_ReleaseFrame] ++ pf.2).
      rewrite !polls_app, (polls_no_provider _ Hc), (polls_no_provider _ Hpf).
      unfold polls. simpl. lia.
    + unfold nonblocking. constructor; [done|]. constructor; [done|].
      apply Forall_app. split; [by apply nonblocking_no_provider|].
      constructor; [done|]. by apply nonblocking_no_provider.
Qed.

(** X15. An update leaves the device's current swap chain as it found it and
    allocates at most one object on the device; a cached texture that was
    older than the device's next serial before the call is so after it. *)
Theorem update_device_effects e d dev :
  let out := gs_duplicator_update_frame e d dev in
  curSwapChain (device_after out) = curSwapChain dev
  /\ (next_obj dev <= next_obj (device_after out) <= S (next_obj dev))%nat
  /\ ((forall t, texture d = Some t -> (gs_texture_2d.id t < next_obj dev)%nat) ->
      forall t, texture (session_after out) = Some t ->
                (gs_texture_2d.id t < next_obj (device_after out))%nat).
Proof.
  destruct (update_frame_cases e d dev)
    as [(r & tr & -> & _ & _) | [(_ & ->) | (_ & _ & ->)]];
    unfold device_after, session_after; simpl.
  - split; [done|split; [lia|done]].
  - pose proof (PresentFrame_frame e d dev) as (_ & Ht & _ & _ & Hn & Hc).
    simpl in *. rewrite Hn, Hc, Ht. split; [done|split; [lia|done]].
  - pose proof (copy_texture_frame e d dev (env_frame e)) as (_ & _ & _ & Hc & _ & _ & Hn).
    pose proof (copy_texture_serial e d dev (env_frame e)) as Hser.
    destruct (copy_texture e d dev (env_frame e)) as [[d1 dev1] tr1]. simpl in *.
    destruct (preview_attached (set_updated true d1)); simpl.
    + pose proof (PresentFrame_frame e (set_updated true d1) dev1)
        as (_ & Ht' & _ & _ & Hn' & Hc').
      simpl in *. rewrite Hn', Hc', Ht'. split; [done|split; [lia|done]].
    + split; [done|split; [lia|done]].
Qed.

(** X16. Once per cycle is enough: after an update that acquired a frame,
    obtained its texture interface and left a cached texture, a further
    update of a session with preview returns true without asking the
    provider again; it only presents. *)
Theorem second_update_does_not_poll e e2 d dev h :
  duplicator d = Some h ->
  preview_attached d = true ->
  let out := gs_duplicator_update_frame e d dev in
  frame_acquired (trace_of out) = true ->
  FAILED (env_QueryInterface e) = false ->
  is_Some (texture (session_after out)) ->
  let out2 := gs_duplicator_update_frame e2 (session_after out) (device_after out) in
  returned out2 = true
  /\ polls (trace_of out2) = 0%nat
  /\ releases (trace_of out2) = 0%nat.
Proof.
  intros Hd Hp out Hacq Hq Htex out2.
  assert (Hstate : same_identity d (session_after out)
                   /\ updated (session_after out) = true).
  { subst out out2.
    destruct (update_frame_cases e d dev)
      as [(r & tr & Hout & Hno & _) | [(_ & Hout) | (_ & _ & Hout)]];
      rewrite Hout in *; unfold session_after, trace_of in *; simpl in *.
    - destruct Hno; congruence.
    - unfold frame_acquired in Hacq.
      by rewrite (polled_no_provider _ (PresentFrame_no_provider e d dev)) in Hacq.
    - pose proof (copy_texture_frame e d dev (env_frame e)) as (Hid & _).
      destruct (copy_texture e d dev (env_frame e)) as [[d1 dev1] tr1]. simpl in *.
      assert (Hid2 : same_identity d (set_updated true d1)) by done.
      destruct (preview_attached (set_updated true d1)); [|done].
      pose proof (PresentFrame_frame e (set_updated true d1) dev1) as (Hid3 & _ & Hu & _).
      simpl in *. split; [|done].
      eapply same_identity_trans; [exact Hid2|exact Hid3]. }
  destruct Hstate as [Hid Hupd].
  assert (Hd' : duplicator (session_after out) = Some h).
  { destruct Hid as (-> & _). done. }
  assert (Hrep : preview_attached (session_after out)
                 && bool_decide (is_Some (texture (session_after out)))
                 && updated (session_after out) = true).
  { rewrite (preview_attached_identity _ _ Hid), Hp, Hupd.
    by rewrite bool_decide_eq_true_2. }
  subst out2.
  rewrite (update_frame_represent e2 _ _ h Hd' Hrep).
  unfold returned, trace_of. simpl.
  rewrite (polls_no_provider _ (PresentFrame_no_provider _ _ _)).
  by rewrite (releases_no_provider _ (PresentFrame_no_provider _ _ _)).
Qed.

(** X17. Presenting is read-only for the capture: [PresentFrame] leaves the
    cached texture, the fresh-frame flag, the color space and everything that
    identifies the session as they are, allocates nothing on the device, and
    never calls the capture provider. *)
Theorem present_leaves_capture_state e d dev :
  let out := PresentFrame e d dev in
  texture out.1.1 = texture d
  /\ updated out.1.1 = updated d
  /\ color_space out.1.1 = color_space d
  /\ same_identity d out.1.1
  /\ next_obj out.1.2 = next_obj dev
  /\ polls out.2 = 0%nat
  /\ releases out.2 = 0%nat.
Proof.
  intros out. subst out.
  pose proof (PresentFrame_frame e d dev) as (Hid & Ht & Hu & Hc & Hn & _).
  pose proof (PresentFrame_no_provider e d dev) as Hp.
  split_and!; try done.
  - by apply polls_no_provider.
  - by apply releases_no_provider.
Qed.

(** X18. An update through a session pointer keeps the process well formed:
    the registry still matches the sessions, and the reference counts and
    serials stay in range. *)
Theorem update_keeps_registry_wf e p w :
  registry_wf w -> registry_wf (update_frame_at e p w).1.2.
Proof.
  intros [Hreg Hlive]. unfold update_frame_at.
  destruct (heap w !! p) as [d|] eqn:Hd; [|done].
  destruct (Hlive _ _ Hd) as (Hinst & Hrefs & Hser & Htex).
  assert (Hafter :
    let out := gs_duplicator_update_frame e d (device w) in
    same_identity d (session_after out)
    /\ (next_obj (device w) <= next_obj (device_after out))%nat
    /\ forall t, texture (session_after out) = Some t ->
                 (gs_texture_2d.id t < next_obj (device_after out))%nat).
  { destruct (update_frame_cases e d (device w))
      as [(r & tr & -> & _ & _) | [(_ & ->) | (_ & _ & ->)]];
      unfold session_after, device_after; simpl.
    - split; [apply same_identity_refl|]. split; [lia|done].
    - pose proof (PresentFrame_frame e d (device w)) as (Hid & Ht & _ & _ & Hn & _).
      simpl in *. rewrite Hn, Ht. split; [done|]. split; [lia|done].
    - pose proof (copy_texture_frame e d (device w) (env_frame e))
        as (Hid & _ & _ & _ & _ & _ & Hn).
      pose proof (copy_texture_serial e d (device w) (env_frame e) Htex) as Hs.
      destruct (copy_texture e d (device w) (env_frame e)) as [[d1 dev1] tr1].
      simpl in *.
      assert (Hid2 : same_identity d (set_updated true d1)) by done.
      destruct (preview_attached (set_updated true d1)); simpl.
      + pose proof (PresentFrame_frame e (set_updated true d1) dev1)
          as (Hid3 & Ht' & _ & _ & Hn' & _).
        simpl in *. rewrite Hn', Ht'. split; [|split; [lia|done]].
        eapply same_identity_trans; [exact Hid2|exact Hid3].
      + split; [done|]. split; [lia|done]. }
  destruct (gs_duplicator_update_frame e d (device w)) as [[[r d'] dev'] tr].
  unfold session_after, device_after in Hafter. simpl in Hafter.
  destruct Hafter as ((_ & _ & _ & Hidx & Hrefs' & _) & Hmono & Htex').
  split; simpl.
  - intros i q Hq. destruct (decide (q = p)) as [->|Hne].
    + rewrite lookup_insert_eq. eexists. split; [done|].
      destruct (Hreg _ _ Hq) as (d0 & Hd0 & Hidx0). congruence.
    + rewrite lookup_insert_ne by done. by apply Hreg.
  - intros q dq. destruct (decide (q = p)) as [->|Hne].
    + rewrite lookup_insert_eq. intros [= <-].
      rewrite Hidx, Hrefs'. split_and!; [done|lia|lia|lia|done].
    + rewrite lookup_insert_ne by done. intros Hq.
      destruct (Hlive _ _ Hq) as (Hinstq & Hrefsq & Hserq & Htexq).
      split_and!; [done|lia|lia|lia|]. intros t Ht. specialize (Htexq t Ht). lia.
Qed.

(** What [reset_duplicators] does to each session pointer. *)
Lemma reset_duplicators_lookup w p :
  (heap (reset_duplicators w) !! p = heap w !! p
   /\ forall i, instances w !! i <> Some p)
  \/ (heap (reset_duplicators w) !! p = set_updated false <$> heap w !! p
      /\ exists i, instances w !! i = Some p).
Proof.
  unfold reset_duplicators. simpl. revert p.
  apply (map_fold_weak_ind
    (fun (r : gmap nat gs_duplicator) (m : gmap Z nat) =>
       forall p,
         (r !! p = heap w !! p /\ forall i, m !! i <> Some p)
         \/ (r !! p = set_updated false <$> heap w !! p
             /\ exists i, m !! i = Some p))).
  - intros p. left. split; [done|]. intros i. by rewrite lookup_empty.
  - intros j x m r Hj IH p. destruct (decide (x = p)) as [<-|Hne].
    + right. split; [|exists j; apply lookup_insert_eq].
      rewrite lookup_alter_eq.
      destruct (IH x) as [[-> _]|[-> _]]; [done|]. by destruct (heap w !! x).
    + rewrite lookup_alter_ne by done.
      destruct (IH p) as [[Hp Hno]|[Hp [i Hi]]].
      * left. split; [done|]. intros i. destruct (decide (j = i)) as [<-|Hji].
        -- rewrite lookup_insert_eq. congruence.
        -- rewrite lookup_insert_ne by done. apply Hno.
      * right. split; [done|]. exists i. rewrite lookup_insert_ne; [done|].
        intros <-. congruence.
Qed.

(** X19. [reset_duplicators] clears the fresh-frame flag of exactly the
    sessions the registry points to: such a session differs from before in
    that flag only, a session the registry does not point to is untouched,
    and the registry, the device and the class flag are as before. *)
Theorem reset_clears_registered_flags w :
  let w' := reset_duplicators w in
  instances w' = instances w
  /\ device w' = device w
  /\ registered w' = registered w
  /\ forall p,
       ((exists i, instances w !! i = Some p) ->
          heap w' !! p = set_updated false <$> heap w !! p)
       /\ ((forall i, instances w !! i <> Some p) ->
             heap w' !! p = heap w !! p).
Proof.
  intros w'. subst w'. split_and!; [done..|]. intros p.
  destruct (reset_duplicators_lookup w p) as [[Hp Hno]|[Hp [i Hi]]]; split.
  - intros [i Hi]. by destruct (Hno i).
  - done.
  - done.
  - intros Hno. by destruct (Hno i).
Qed.

(** X20. Opening a cycle twice is opening it once, and it keeps the process
    well formed. *)
Theorem reset_idempotent_and_wf w :
  reset_duplicators (reset_duplicators w) = reset_duplicators w
  /\ (registry_wf w -> registry_wf (reset_duplicators w)).
Proof.
  split.
  - assert (Hheap : heap (reset_duplicators (reset_duplicators w))
                    = heap (reset_duplicators w)).
    { apply map_eq. intros p.
      destruct (reset_duplicators_lookup (reset_duplicators w) p)
        as [[Hp _]|[Hp _]]; [done|].
      rewrite Hp.
      destruct (reset_duplicators_lookup w p) as [[Hq Hno]|[Hq _]].
      - (* not registered: the second reset cannot have cleared it *)
        destruct (reset_duplicators_lookup (reset_duplicators w) p)
          as [[Hp' _]|[_ [i Hi]]]; [congruence|].
        by destruct (Hno i).
      - rewrite Hq. by destruct (heap w !! p). }
    change (reset_duplicators (reset_duplicators w))
      with (set_heap (heap (reset_duplicators (reset_duplicators w)))
              (reset_duplicators w)).
    rewrite Hheap. by destruct (reset_duplicators w).
  - intros [Hreg Hlive]. split.
    + intros i p Hi. simpl in Hi.
      destruct (Hreg _ _ Hi) as (d & Hd & Hidx).
      destruct (reset_duplicators_lookup w p) as [[Hp _]|[Hp _]]; rewrite Hp, Hd.
      * by exists d.
      * by exists (set_updated false d).
    + intros p d Hd.
      assert (Hold : exists d0, heap w !! p = Some d0
                                /\ idx d = idx d0 /\ refs d = refs d0
                                /\ texture d = texture d0).
      { destruct (reset_duplicators_lookup w p) as [[Hp _]|[Hp _]];
          rewrite Hp in Hd.
        - by exists d.
        - destruct (heap w !! p) as [d0|]; [|done]. simpl in Hd. simplify_eq.
          by exists d0. }
      destruct Hold as (d0 & Hd0 & Hi & Hr & Ht).
      destruct (Hlive _ _ Hd0) as (Hinst & Hrefs & Hser & Htex).
      simpl. rewrite Hi, Hr, Ht. done.
Qed.

(** X21. After [reset_duplicators], the next update of any registered session
    with its capture handle asks the provider, whatever the flag was before:
    staleness is not carried over from the cycle before. *)
Theorem first_update_of_cycle_polls e w i p d :
  instances w !! i = Some p ->
  heap w !! p = Some d ->
  is_Some (duplicator d) ->
  let out := update_frame_at e p (reset_duplicators w) in
  out.1.1 <> None
  /\ polled out.2 = Some (env_AcquireNextFrame e)
  /\ polls out.2 = 1%nat.
Proof.
  intros Hi Hp [h Hh] out. subst out. unfold update_frame_at.
  rewrite (reset_duplicators_clears w i p Hi), Hp. simpl.
  assert (Hcond : preview_attached (set_updated false d)
                  && bool_decide (is_Some (texture (set_updated false d)))
                  && updated (set_updated false d) = false).
  { simpl. apply andb_false_r. }
  pose proof (update_frame_polling e (set_updated false d) (device w) h Hh Hcond)
    as Hpolled.
  assert (Hone : polls (trace_of (gs_duplicator_update_frame e (set_updated false d)
                                    (device w))) = 1%nat).
  { destruct (update_frame_cases e (set_updated false d) (device w))
      as [(r & tr & Hout & _ & Htr) | [(Hc & _) | (_ & _ & Hout)]].
    - rewrite Hout in *. unfold trace_of in *. simpl in *.
      destruct Htr as [-> | [-> | [-> | ->]]]; done.
    - congruence.
    - rewrite Hout. unfold trace_of. simpl.
      pose proof (copy_texture_no_provider e (set_updated false d) (device w)
                    (env_frame e)) as Hc.
      destruct (copy_texture e (set_updated false d) (device w) (env_frame e))
        as [[d1 dev1] tr1]. simpl in *.
      assert (Hpf : Forall (fun ev => is_provider_event ev = false)
                (if preview_attached (set_updated true d1)
                 then PresentFrame e (set_updated true d1) dev1
                 else (set_updated true d1, dev1, [])).2).
      { destruct (preview_attached (set_updated true d1));
          [apply PresentFrame_no_provider|constructor]. }
      set (pf := if preview_attached (set_updated true d1)
                 then PresentFrame e (set_updated true d1) dev1
                 else (set_updated true d1, dev1, [])) in *.
      change (?a :: ?b :: tr1 ++ ev_ReleaseFrame :: pf.2)
        with ([a; b] ++ tr1 ++ [ev_ReleaseFrame] ++ pf.2).
      rewrite !polls_app, (polls_no_provider _ Hc), (polls_no_provider _ Hpf).
      done. }
  destruct (gs_duplicator_update_frame e (set_updated false d) (device w))
    as [[[r d'] dev'] tr].
  unfold trace_of in *. simpl in *. done.
Qed.

(** X22. The cache fits the last frame: whatever texture is cached after
    [copy_texture] has the frame's width, height and generalized format and
    holds the frame; and a further frame of the same description, whatever
    the GPU would answer to an allocation, is copied into that same texture
    with one [CopyResource] and nothing else. *)
Theorem cached_texture_fits_last_frame e d dev tex t :
  let out := copy_texture e d dev tex in
  texture out.1.1 = Some t ->
  frame_fits t tex
  /\ gs_texture_2d.image t = Some (frame_image tex)
  /\ forall e' tex',
       GetDesc tex' = GetDesc tex ->
       copy_texture e' out.1.1 out.1.2 tex'
       = (set_texture (Some (gs_texture_2d.set_image (Some (frame_image tex')) t))
            out.1.1,
          out.1.2,
          [ev_CopyResource (gs_texture_2d.id t) (frame_image tex')]).
Proof.
  intros out Ht.
  assert (Hfit : frame_fits t tex /\ gs_texture_2d.image t = Some (frame_image tex)).
  { subst out. revert Ht. unfold copy_texture, ensure_texture, gs_texture_create.
    destruct (needs_new_texture _ _ _) eqn:Hneed.
    - destruct (env_texture_alloc e); simpl; intros [= <-]; done.
    - unfold needs_new_texture in Hneed.
      destruct (texture d) as [t0|] eqn:Ht0; [|done]. simpl. rewrite ?Ht0. simpl.
      intros [= <-]. unfold frame_fits. simpl.
      apply orb_false_iff in Hneed as [Hneed Hf].
      apply orb_false_iff in Hneed as [Hw Hh].
      apply negb_false_iff in Hw, Hh, Hf. split_and!; [lia..|done]. }
  destruct Hfit as [(Hw & Hh & Hf) Himg]. split_and!; [done|done|].
  intros e' tex' Hdesc.
  unfold copy_texture at 1, ensure_texture, needs_new_texture.
  rewrite Ht, Hdesc, Hw, Hh, Hf, !Z.eqb_refl. simpl. by rewrite Ht.
Qed.

End Updates.

Section MonitorQueries.

Lemma to_int32_add_r a b : to_int32 (a + to_int32 b) = to_int32 (a + b).
Proof.
  unfold to_int32. f_equal.
  replace (a + ((b + 2 ^ 31) mod 2 ^ 32 - 2 ^ 31) + 2 ^ 31)
    with (a + (b + 2 ^ 31) mod 2 ^ 32) by lia.
  rewrite Zplus_mod_idemp_r. f_equal. lia.
Qed.

Lemma to_uint32_small v : 0 <= v < 2 ^ 32 -> to_uint32 v = v.
Proof. intros Hv. unfold to_uint32. by apply Z.mod_small. Qed.

Lemma monitor_info_query_cases hr_enum hr_desc :
  (monitor_info_query hr_enum hr_desc = inr true
   /\ FAILED hr_enum = false /\ FAILED hr_desc = false)
  \/ (monitor_info_query hr_enum hr_desc = inr false
      /\ hr_enum = DXGI_ERROR_NOT_FOUND)
  \/ (exists str hr,
        monitor_info_query hr_enum hr_desc = inl (throw_HRError (mkHRError str hr))
        /\ FAILED hr = true
        /\ hr_enum <> DXGI_ERROR_NOT_FOUND
        /\ (FAILED hr_enum = true \/ FAILED hr_desc = true)).
Proof.
  unfold monitor_info_query.
  destruct (get_monitor_cases hr_enum) as [[-> Hf]|[[-> Hnf]|[-> [Hf Hne]]]]; simpl.
  - destruct (FAILED hr_desc) eqn:Hd; [|by left].
    right. right. eexists _, _. split; [done|]. split; [done|].
    split; [|by right]. intros Heq. by rewrite Heq in Hf.
  - right. by left.
  - right. right. eexists _, _. split; [done|]. split; [done|]. split; [done|by left].
Qed.

(** X23. [device_get_duplicator_monitor_info] never throws. It returns true
    exactly when the output is found and its description can be read; any
    other outcome returns false and leaves the caller's structure untouched.
    A monitor index the adapter does not know ([DXGI_ERROR_NOT_FOUND]) is
    reported silently, every other failure with one log line. *)
Theorem monitor_info_failure hr_enum hr_desc desc info :
  let out := device_get_duplicator_monitor_info hr_enum hr_desc desc info in
  (exists b, out.1.1 = inr b)
  /\ (out.1.1 = inr true <-> FAILED hr_enum = false /\ FAILED hr_desc = false)
  /\ (out.1.1 <> inr true -> out.1.2 = info)
  /\ (out.2 = [] <-> out.1.1 = inr true \/ hr_enum = DXGI_ERROR_NOT_FOUND)
  /\ (length out.2 <= 1)%nat.
Proof.
  intros out. subst out. unfold device_get_duplicator_monitor_info.
  destruct (monitor_info_query_cases hr_enum hr_desc)
    as [(-> & He & Hd) | [(-> & Hnf) | (str & hr & -> & Hf & Hne & Hwhy)]]; simpl.
  - split_and!; [by eexists|done|done| |lia]. split; [by left|done].
  - assert (Hfail : FAILED hr_enum = true) by by rewrite Hnf.
    split_and!; [by eexists| |done| |lia].
    + split; [done|]. intros [? _]. congruence.
    + split; [by right|done].
  - split_and!; [by eexists| |done| |lia].
    + split; [done|]. intros [? ?]. destruct Hwhy; congruence.
    + split; [done|]. intros [?|?]; done.
Qed.

(** X24. On success the structure describes the output's desktop rectangle:
    the origin is its top left corner, and origin plus extent is its bottom
    right corner (for coordinates that are [long] values); the extent is the
    plain difference whenever that fits a [long]. The rotation is 0, 90, 180
    or 270 degrees for the five values of the enumeration, and what the
    caller had for any other value. *)
Theorem monitor_info_geometry hr_enum hr_desc desc info :
  let out := device_get_duplicator_monitor_info hr_enum hr_desc desc info in
  let rc := DesktopCoordinates desc in
  out.1.1 = inr true ->
  - 2 ^ 31 <= rect_right rc < 2 ^ 31 ->
  - 2 ^ 31 <= rect_bottom rc < 2 ^ 31 ->
  info_x out.1.2 = rect_left rc
  /\ info_y out.1.2 = rect_top rc
  /\ to_int32 (info_x out.1.2 + info_cx out.1.2) = rect_right rc
  /\ to_int32 (info_y out.1.2 + info_cy out.1.2) = rect_bottom rc
  /\ (- 2 ^ 31 <= rect_right rc - rect_left rc < 2 ^ 31 ->
      info_cx out.1.2 = rect_right rc - rect_left rc)
  /\ (- 2 ^ 31 <= rect_bottom rc - rect_top rc < 2 ^ 31 ->
      info_cy out.1.2 = rect_bottom rc - rect_top rc)
  /\ rotation_degrees out.1.2
     = if (0 <=? Rotation desc) && (Rotation desc <=? 4)
       then 90 * Z.max 0 (Rotation desc - 1)
       else rotation_degrees info.
Proof.
  intros out rc. subst out rc. unfold device_get_duplicator_monitor_info.
  destruct (monitor_info_query_cases hr_enum hr_desc)
    as [(-> & He & Hd) | [(-> & Hnf) | (str & hr & -> & Hf & Hne & Hwhy)]]; simpl;
    [|done..].
  intros _ Hr Hb. split_and!; try done.
  - rewrite to_int32_add_r. rewrite <- (to_int32_small (rect_right _)) at 2 by done.
    f_equal. lia.
  - rewrite to_int32_add_r. rewrite <- (to_int32_small (rect_bottom _)) at 2 by done.
    f_equal. lia.
  - apply to_int32_small.
  - apply to_int32_small.
  - unfold DXGI_MODE_ROTATION_UNSPECIFIED, DXGI_MODE_ROTATION_IDENTITY,
      DXGI_MODE_ROTATION_ROTATE90, DXGI_MODE_ROTATION_ROTATE180,
      DXGI_MODE_ROTATION_ROTATE270.
    destruct (Z.eqb_spec (Rotation desc) 0) as [->|H0]; [done|].
    destruct (Z.eqb_spec (Rotation desc) 1) as [->|H1]; [done|].
    destruct (Z.eqb_spec (Rotation desc) 2) as [->|H2]; [done|].
    destruct (Z.eqb_spec (Rotation desc) 3) as [->|H3]; [done|].
    destruct (Z.eqb_spec (Rotation desc) 4) as [->|H4]; [done|].
    simpl.
    destruct (Z.leb_spec 0 (Rotation desc)), (Z.leb_spec (Rotation desc) 4);
      simpl; done || lia.
Qed.

(** The loop from output [k] on, when the adapter's outputs end at [n]. *)
Lemma monitor_index_loop_spec adapter monitor n (m : nat) : forall k fuel,
  0 <= k -> k + Z.of_nat m = n -> n < 2 ^ 31 ->
  (forall i, k <= i < n -> out_EnumOutputs (adapter i) <> DXGI_ERROR_NOT_FOUND) ->
  out_EnumOutputs (adapter n) = DXGI_ERROR_NOT_FOUND ->
  (m < fuel)%nat ->
  exists r evs,
    monitor_index_loop adapter monitor fuel k = Some (r, evs)
    /\ ((r = -1
         /\ (forall i, k <= i < n -> output_matches adapter monitor i = false)
         /\ released_outputs evs
            = filter (fun i => handed_out adapter i = true) (seqZ k (n - k)))
        \/ (k <= r < n
            /\ output_matches adapter monitor r = true
            /\ (forall i, k <= i < r -> output_matches adapter monitor i = false)
            /\ released_outputs evs
               = filter (fun i => handed_out adapter i = true) (seqZ k (r + 1 - k)))).
Proof.
  induction m as [|m IH]; intros k fuel Hk Hn Hmax Hnf Hend Hfuel.
  - assert (k = n) as -> by lia.
    destruct fuel as [|fuel]; [lia|]. simpl. rewrite Hend, Z.eqb_refl.
    eexists _, _. split; [done|]. left. split; [done|]. split; [intros; lia|].
    by rewrite Z.sub_diag.
  - destruct fuel as [|fuel]; [lia|]. simpl.
    destruct (Z.eqb_spec (out_EnumOutputs (adapter k)) DXGI_ERROR_NOT_FOUND) as [Heq|_].
    { exfalso. apply (Hnf k); [lia|done]. }
    rewrite to_uint32_small by lia.
    destruct (IH (k + 1) fuel) as (r & evs & Hloop & Hres);
      [lia|lia|done|intros i Hi; apply Hnf; lia|done|lia|].
    assert (Hseq : forall len, 0 < len -> seqZ k len = k :: seqZ (k + 1) (len - 1)).
    { intros len Hlen. by rewrite seqZ_cons. }
    (* what the rest of the loop gives once output [k] has not matched *)
    assert (Hrest : forall (sel : bool) pre,
      output_matches adapter monitor k = false ->
      handed_out adapter k = sel ->
      released_outputs pre = (if sel then [k] else []) ->
      exists r' evs',
        match monitor_index_loop adapter monitor fuel (k + 1) with
        | Some (r, evs') => Some (r, pre ++ evs')
        | None => None
        end = Some (r', evs')
        /\ ((r' = -1
             /\ (forall i, k <= i < n -> output_matches adapter monitor i = false)
             /\ released_outputs evs'
                = filter (fun i => handed_out adapter i = true) (seqZ k (n - k)))
            \/ (k <= r' < n
                /\ output_matches adapter monitor r' = true
                /\ (forall i, k <= i < r' -> output_matches adapter monitor i = false)
                /\ released_outputs evs'
                   = filter (fun i => handed_out adapter i = true)
                       (seqZ k (r' + 1 - k))))).
    { intros sel pre Hno Hsel Hpre. rewrite Hloop. exists r, (pre ++ evs).
      split; [done|].
      assert (Hcons : forall len, 0 < len ->
        filter (fun i => handed_out adapter i = true) (seqZ k len)
        = (if sel then [k] else [])
          ++ filter (fun i => handed_out adapter i = true) (seqZ (k + 1) (len - 1))).
      { intros len Hlen. rewrite (Hseq len Hlen), filter_cons.
        destruct sel; [by rewrite decide_True|by rewrite decide_False by congruence]. }
      unfold released_outputs in *. rewrite omap_app, Hpre.
      destruct Hres as [(-> & Hnone & Hrel)|(Hr & Hm & Hnone & Hrel)].
      - left. split; [done|]. split.
        + intros i Hi. destruct (decide (i = k)) as [->|Hne]; [done|].
          apply Hnone. lia.
        + rewrite Hrel, (Hcons (n - k)) by lia.
          by replace (n - (k + 1)) with (n - k - 1) by lia.
      - right. split; [lia|]. split; [done|]. split.
        + intros i Hi. destruct (decide (i = k)) as [->|Hne]; [done|].
          apply Hnone. lia.
        + rewrite Hrel, (Hcons (r + 1 - k)) by lia.
          by replace (r + 1 - (k + 1)) with (r + 1 - k - 1) by lia. }
    unfold monitor_index_step.
    destruct (SUCCEEDED (out_EnumOutputs (adapter k))) eqn:Hs.
    + destruct (SUCCEEDED (out_GetDesc (adapter k))) eqn:Hdesc.
      * destruct (bool_decide (out_Monitor (adapter k) = monitor)) eqn:Hmon.
        -- rewrite to_int32_small by lia.
           destruct (Z.eqb_spec k (-1)); [lia|].
           eexists _, _. split; [done|]. right. split; [lia|].
           split; [unfold output_matches; by rewrite Hs, Hdesc, Hmon|].
           split; [intros; lia|].
           replace (k + 1 - k) with 1 by lia.
           rewrite (Hseq 1) by lia. simpl.
           rewrite filter_cons_True by (unfold handed_out; by rewrite Hs). done.
        -- simpl. apply (Hrest true [ix_Release k]); [|done|done].
           unfold output_matches. by rewrite Hs, Hdesc, Hmon.
      * simpl.
        apply (Hrest true
                 [ix_blog "device_duplicator_get_monitor_index: Failed to get desc";
                  ix_Release k]); [|done|done].
        unfold output_matches. by rewrite Hs, Hdesc.
    + destruct (_ =? DXGI_ERROR_NOT_FOUND) eqn:Hdead; simpl.
      * apply Z.eqb_eq in Hdead. exfalso. apply (Hnf k); [lia|done].
      * apply (Hrest false []); [|done|done].
        unfold output_matches. by rewrite Hs.
Qed.

(** X25. On an adapter whose outputs end at index [n] (the first index it
    answers with [DXGI_ERROR_NOT_FOUND]), the search for a monitor comes back
    within [n + 1] rounds with the smallest index whose output is handed out,
    can be described and sits on that monitor, or with -1 when there is none.
    An output that cannot be enumerated or described is skipped, not taken
    for the end. *)
Theorem monitor_index_is_first_match adapter monitor n fuel :
  0 <= n < 2 ^ 31 ->
  (forall i, 0 <= i < n -> out_EnumOutputs (adapter i) <> DXGI_ERROR_NOT_FOUND) ->
  out_EnumOutputs (adapter n) = DXGI_ERROR_NOT_FOUND ->
  (Z.to_nat n < fuel)%nat ->
  exists r evs,
    device_duplicator_get_monitor_index adapter monitor fuel = Some (r, evs)
    /\ ((r = -1 /\ forall i, 0 <= i < n -> output_matches adapter monitor i = false)
        \/ (0 <= r < n
            /\ output_matches adapter monitor r = true
            /\ forall i, 0 <= i < r -> output_matches adapter monitor i = false)).
Proof.
  intros Hn Hnf Hend Hfuel. unfold device_duplicator_get_monitor_index.
  destruct (monitor_index_loop_spec adapter monitor n (Z.to_nat n) 0 fuel)
    as (r & evs & Hloop & Hres); [lia|lia|lia|done|done|done|].
  exists r, evs. split; [done|].
  destruct Hres as [(Hr & Hnone & _)|(Hr & Hm & Hnone & _)]; [by left|by right].
Qed.

(** X26. The search gives back every output it was handed: the outputs it
    releases are exactly those the adapter handed out among the indices it
    visited (up to the match, or up to the end), each once and in order. *)
Theorem monitor_index_releases_outputs adapter monitor n fuel :
  0 <= n < 2 ^ 31 ->
  (forall i, 0 <= i < n -> out_EnumOutputs (adapter i) <> DXGI_ERROR_NOT_FOUND) ->
  out_EnumOutputs (adapter n) = DXGI_ERROR_NOT_FOUND ->
  (Z.to_nat n < fuel)%nat ->
  exists r evs,
    device_duplicator_get_monitor_index adapter monitor fuel = Some (r, evs)
    /\ released_outputs evs
       = filter (fun i => handed_out adapter i = true)
           (seqZ 0 (if r =? -1 then n else r + 1)).
Proof.
  intros Hn Hnf Hend Hfuel. unfold device_duplicator_get_monitor_index.
  destruct (monitor_index_loop_spec adapter monitor n (Z.to_nat n) 0 fuel)
    as (r & evs & Hloop & Hres); [lia|lia|lia|done|done|done|].
  exists r, evs. split; [done|].
  destruct Hres as [(-> & _ & Hrel)|(Hr & _ & _ & Hrel)].
  - simpl. rewrite Hrel. by rewrite Z.sub_0_r.
  - destruct (Z.eqb_spec r (-1)); [lia|]. rewrite Hrel. by rewrite Z.sub_0_r.
Qed.

End MonitorQueries.

(** ** The further properties at concrete inputs *)

Lemma sample_capturing_world_wf : registry_wf sample_capturing_world.
Proof.
  split; simpl.
  - intros i p [<- <-]%lookup_singleton_Some. exists sample_session.
    split; [apply lookup_singleton_eq|done].
  - intros p d [<- <-]%lookup_singleton_Some. simpl.
    split_and!; [apply lookup_singleton_eq|lia|lia|lia|].
    intros t [= <-]. simpl. lia.
Qed.


Lemma new_session_initial_state_sample :
  refs sample_new_session = 1 /\ texture sample_new_session = None
  /\ (is_Some (displayWindow sample_new_session)
      <-> is_Some (displaySwapChain sample_new_session)).
Proof.
  assert (Hnew : exists dev' reg' tr,
    gs_duplicator_new (H:=sample_headers) (sample_start_env S_OK)
      (bump_next_obj (device sample_world)) (registered sample_world) 0
    = (inr sample_new_session, dev', reg', tr)).
  { eexists _, _, _. reflexivity. }
  destruct Hnew as (dev' & reg' & tr & Hnew).
  destruct (new_session_initial_state (H:=sample_headers) _ _ _ _ _ _ _ _ Hnew)
    as (Hr & _ & Ht & _ & _ & _ & Hp).
  split; [exact Hr|]. split; [exact Ht|exact Hp].
Defined.

Lemma preview_failure_is_not_fatal_sample :
  exists d,
    (gs_duplicator_new (H:=sample_headers) sample_start_env_no_swap_chain
       sample_device false 0).1.1.1 = inr d
    /\ displayWindow d = None /\ displaySwapChain d = None.
Proof.
  assert (Hs : Start_duplication sample_start_env_no_swap_chain
               = inr (10%nat, true, 240)) by reflexivity.
  assert (He : FAILED (env_EnumOutputs_window sample_start_env_no_swap_chain) = false
               \/ env_EnumOutputs_window sample_start_env_no_swap_chain
                  = DXGI_ERROR_NOT_FOUND) by (left; reflexivity).
  assert (Hstr : forall init msg,
            env_new_swap_chain sample_start_env_no_swap_chain init
            <> inl (throw_str msg)) by (intros init msg; discriminate).
  destruct (preview_failure_is_not_fatal (H:=sample_headers)
              sample_start_env_no_swap_chain sample_device false 0 _ Hs He Hstr)
    as (d & Hd & Hnone).
  exists d. split; [exact Hd|]. apply Hnone.
  do 4 right. exists 11%nat, (mkHRError "Failed to create swap chain" E_FAIL).
  split; reflexivity.
Defined.

Lemma failed_swap_chain_destroys_window_sample :
  CreateDisplayWindow (H:=sample_headers) sample_start_env_no_swap_chain
    sample_device false
  = (inr (None, None), sample_device, true,
     [ev_blog LOG_ERROR "Failed to create swap chain"; ev_DestroyWindow 11%nat]).
Proof.
  apply (failed_swap_chain_destroys_window (H:=sample_headers)
           sample_start_env_no_swap_chain sample_device false 11%nat
           (mkHRError "Failed to create swap chain" E_FAIL));
    [right; reflexivity|reflexivity..].
Defined.

Lemma create_keeps_registry_wf_sample :
  registry_wf
    (device_duplicator_create (H:=sample_headers) (sample_start_env S_OK) 0
       sample_capturing_world).1.2.
Proof.
  apply create_keeps_registry_wf; [exact sample_capturing_world_wf|].
  intros p d Hp Hd. vm_compute in Hp. injection Hp as <-.
  vm_compute in Hd. injection Hd as <-. reflexivity.
Defined.

Lemma destroy_keeps_registry_wf_sample :
  registry_wf (gs_duplicator_destroy 2 sample_capturing_world).1
  /\ heap (gs_duplicator_destroy 2 sample_capturing_world).1
     = delete 2%nat (heap sample_capturing_world).
Proof.
  assert (Hd : heap sample_capturing_world !! 2%nat = Some sample_session)
    by reflexivity.
  destruct (destroy_keeps_registry_wf 2 sample_capturing_world sample_session
              sample_capturing_world_wf Hd) as (Hwf & _ & _ & Hheap & _).
  split; [exact Hwf|exact Hheap].
Defined.

Lemma create_leaves_other_monitors_sample :
  instances (device_duplicator_create (H:=sample_headers) (sample_start_env S_OK) 1
               sample_capturing_world).1.2 !! 0
  = instances sample_capturing_world !! 0.
Proof.
  assert (Hne : 0 <> 1) by discriminate.
  exact (proj1 (create_leaves_other_monitors (H:=sample_headers)
                  (sample_start_env S_OK) 1 sample_capturing_world 0
                  sample_capturing_world_wf Hne)).
Defined.


Lemma acquire_then_release_restores_sample :
  let w1 := (device_duplicator_create (H:=sample_headers) (sample_start_env S_OK) 0
               sample_capturing_world).1.2 in
  heap (gs_duplicator_destroy 2 w1).1 = heap sample_capturing_world.
Proof.
  assert (Hroom : forall q d,
            instances sample_capturing_world !! 0 = Some q ->
            heap sample_capturing_world !! q = Some d -> refs d < 2 ^ 31 - 1).
  { intros q d Hq Hd. vm_compute in Hq. injection Hq as <-.
    vm_compute in Hd. injection Hd as <-. reflexivity. }
  assert (Hp : (device_duplicator_create (H:=sample_headers) (sample_start_env S_OK) 0
                  sample_capturing_world).1.1 = Some 2%nat) by reflexivity.
  exact (proj2 (acquire_then_release_restores (H:=sample_headers)
                  (sample_start_env S_OK) 0 sample_capturing_world 2%nat
                  sample_capturing_world_wf Hroom Hp)).
Defined.

Lemma reacquire_is_new_session_sample :
  let w1 := (device_duplicator_create (H:=sample_headers) (sample_start_env S_OK) 0
               sample_world).1.2 in
  let w2 := (gs_duplicator_destroy 2 w1).1 in
  instances w2 !! 0 = None /\ heap w2 !! 2%nat = None.
Proof.
  assert (Hnone : instances sample_world !! 0 = None) by reflexivity.
  assert (Hnew :
    (gs_duplicator_new (H:=sample_headers) (sample_start_env S_OK)
       (bump_next_obj (device sample_world)) (registered sample_world) 0).1.1.1
    = inr sample_new_session) by reflexivity.
  destruct (reacquire_is_new_session (H:=sample_headers) (sample_start_env S_OK)
              (sample_start_env S_OK) 0 sample_world sample_new_session Hnone Hnew)
    as (Hgone & Hfreed & _).
  split; [exact Hgone|exact Hfreed].
Defined.

Lemma window_class_stays_registered_sample :
  registered (device_duplicator_create (H:=sample_headers)
                (sample_start_env DXGI_ERROR_NOT_FOUND) 7 sample_capturing_world).1.2
  = true.
Proof. apply window_class_stays_registered. reflexivity. Defined.

Lemma second_update_does_not_poll_sample :
  let e := sample_update_env (sample_frame 1280 720 DXGI_FORMAT_B8G8R8A8_UNORM 7)
             (Some 31%nat) in
  let out := gs_duplicator_update_frame (H:=sample_headers) e
               (set_updated false sample_session) sample_device in
  polls (trace_of (gs_duplicator_update_frame (H:=sample_headers) sample_idle_env
                     (session_after out) (device_after out))) = 0%nat.
Proof.
  intros e out.
  assert (Hd : duplicator (set_updated false sample_session) = Some 10%nat)
    by reflexivity.
  assert (Hp : preview_attached (set_updated false sample_session) = true)
    by reflexivity.
  assert (Hacq : frame_acquired (trace_of out) = true) by reflexivity.
  assert (Hq : FAILED (env_QueryInterface e) = false) by reflexivity.
  assert (Ht : is_Some (texture (session_after out))) by (eexists; reflexivity).
  exact (proj1 (proj2 (second_update_does_not_poll (H:=sample_headers) e
                         sample_idle_env (set_updated false sample_session)
                         sample_device 10%nat Hd Hp Hacq Hq Ht))).
Defined.

Lemma update_keeps_registry_wf_sample :
  registry_wf
    (update_frame_at (H:=sample_headers)
       (sample_update_env (sample_frame 1280 720 DXGI_FORMAT_B8G8R8A8_UNORM 7)
          (Some 31%nat))
       2 sample_capturing_world).1.2.
Proof. apply update_keeps_registry_wf. exact sample_capturing_world_wf. Defined.

Lemma first_update_of_cycle_polls_sample :
  polled (update_frame_at (H:=sample_headers) sample_idle_env 2
            (reset_duplicators sample_capturing_world)).2
  = Some DXGI_ERROR_WAIT_TIMEOUT.
Proof.
  assert (Hi : instances sample_capturing_world !! 0 = Some 2%nat) by reflexivity.
  assert (Hp : heap sample_capturing_world !! 2%nat = Some sample_session)
    by reflexivity.
  assert (Hd : is_Some (duplicator sample_session)) by (eexists; reflexivity).
  exact (proj1 (proj2 (first_update_of_cycle_polls (H:=sample_headers) sample_idle_env
                         sample_capturing_world 0 2%nat sample_session Hi Hp Hd))).
Defined.

Lemma cached_texture_fits_last_frame_sample :
  let tex := sample_frame 1280 720 DXGI_FORMAT_B8G8R8A8_UNORM 7 in
  let t := gs_texture_2d.mk 4 1280 720 5 (Some 31%nat) None (Some 7%nat) in
  frame_fits (H:=sample_headers) t tex
  /\ gs_texture_2d.image t = Some (frame_image tex).
Proof.
  intros tex t.
  assert (Ht : texture (copy_texture (H:=sample_headers)
                          (sample_update_env tex (Some 31%nat))
                          sample_session sample_device tex).1.1 = Some t)
    by reflexivity.
  destruct (cached_texture_fits_last_frame (H:=sample_headers)
              (sample_update_env tex (Some 31%nat)) sample_session sample_device tex t Ht)
    as (Hfit & Himg & _).
  split; [exact Hfit|exact Himg].
Defined.

Lemma texture_stable_across_fitting_frames_sample :
  let f1 := sample_frame 1920 1080 DXGI_FORMAT_B8G8R8A8_UNORM 7 in
  let f2 := sample_frame 1920 1080 DXGI_FORMAT_B8G8R8A8_UNORM 8 in
  exists img,
    texture (copy_frames (H:=sample_headers)
               [(sample_update_env f1 None, f1); (sample_update_env f2 None, f2)]
               sample_session sample_device).1.1
    = Some (gs_texture_2d.set_image img sample_texture).
Proof.
  intros f1 f2.
  assert (Ht : texture sample_session = Some sample_texture) by reflexivity.
  assert (Hfit : Forall (fun f : update_env * ID3D11Texture2D =>
                           frame_fits (H:=sample_headers) sample_texture f.2)
                   [(sample_update_env f1 None, f1); (sample_update_env f2 None, f2)]).
  { repeat constructor. }
  destruct (texture_stable_across_fitting_frames (H:=sample_headers) _
              sample_session sample_device sample_texture Ht Hfit) as (img & Himg & _).
  exists img. exact Himg.
Defined.

Lemma monitor_info_geometry_sample :
  let out := device_get_duplicator_monitor_info S_OK S_OK sample_output_desc
               sample_monitor_info in
  info_x out.1.2 = 1920 /\ info_cx out.1.2 = 2560 /\ info_cy out.1.2 = 1440
  /\ rotation_degrees out.1.2 = 90.
Proof.
  intros out.
  assert (Hok : out.1.1 = inr true) by reflexivity.
  assert (Hr : - 2 ^ 31 <= rect_right (DesktopCoordinates sample_output_desc) < 2 ^ 31)
    by (simpl; lia).
  assert (Hb : - 2 ^ 31 <= rect_bottom (DesktopCoordinates sample_output_desc) < 2 ^ 31)
    by (simpl; lia).
  destruct (monitor_info_geometry S_OK S_OK sample_output_desc sample_monitor_info
              Hok Hr Hb) as (Hx & _ & _ & _ & Hcx & Hcy & Hrot).
  split; [exact Hx|]. split; [apply Hcx; simpl; lia|].
  split; [apply Hcy; simpl; lia|exact Hrot].
Defined.

Lemma sample_adapter_ends_at_3 :
  (forall i, 0 <= i < 3 -> out_EnumOutputs (sample_adapter i) <> DXGI_ERROR_NOT_FOUND)
  /\ out_EnumOutputs (sample_adapter 3) = DXGI_ERROR_NOT_FOUND.
Proof.
  split; [|reflexivity]. intros i Hi.
  assert (i = 0 \/ i = 1 \/ i = 2) as [-> | [-> | ->]] by lia; discriminate.
Qed.

Lemma monitor_index_is_first_match_sample :
  exists evs,
    device_duplicator_get_monitor_index sample_adapter 102%nat 4 = Some (2, evs).
Proof.
  assert (Hn : 0 <= 3 < 2 ^ 31) by lia.
  assert (Hfuel : (Z.to_nat 3 < 4)%nat) by (simpl; lia).
  destruct (monitor_index_is_first_match sample_adapter 102%nat 3 4 Hn
              (proj1 sample_adapter_ends_at_3) (proj2 sample_adapter_ends_at_3) Hfuel)
    as (r & evs & Hrun & _).
  assert (r = 2) as -> by (vm_compute in Hrun; congruence).
  exists evs. exact Hrun.
Defined.

Lemma monitor_index_releases_outputs_sample :
  exists r evs,
    device_duplicator_get_monitor_index sample_adapter 555%nat 4 = Some (r, evs)
    /\ released_outputs evs = [0; 1; 2].
Proof.
  assert (Hn : 0 <= 3 < 2 ^ 31) by lia.
  assert (Hfuel : (Z.to_nat 3 < 4)%nat) by (simpl; lia).
  destruct (monitor_index_releases_outputs sample_adapter 555%nat 3 4 Hn
              (proj1 sample_adapter_ends_at_3) (proj2 sample_adapter_ends_at_3) Hfuel)
    as (r & evs & Hrun & Hrel).
  exists r, evs. split; [exact Hrun|].
  rewrite Hrel. revert Hrun. vm_compute. intros [= <- _]. reflexivity.
Defined.

(** ** The color space of reachable sessions *)

Section ColorSpace.
Context `{GraphicsHeaders}.

Lemma half_float_generalized f :
  half_float_is_distinct ->
  (gs_generalize_format (ConvertDXGITextureFormat f)
   =? gs_generalize_format (ConvertDXGITextureFormat DXGI_FORMAT_R16G16B16A16_FLOAT))
  = (f =? DXGI_FORMAT_R16G16B16A16_FLOAT).
Proof.
  intros Hdistinct.
  destruct (Z.eqb_spec f DXGI_FORMAT_R16G16B16A16_FLOAT) as [->|Hne].
  - apply Z.eqb_refl.
  - apply Z.eqb_neq. intros Heq. by apply Hne, Hdistinct.
Qed.

Lemma copy_texture_color_space_fits e d dev tex :
  half_float_is_distinct ->
  color_space_fits d -> color_space_fits (copy_texture e d dev tex).1.1.
Proof.
  intros Hdistinct Hfits t. unfold copy_texture, ensure_texture, gs_texture_create.
  destruct (needs_new_texture _ _ _).
  - destruct (env_texture_alloc e); simpl; [|done].
    intros [= <-]. simpl. by rewrite half_float_generalized.
  - destruct (texture d) as [t0|] eqn:Ht0; simpl; rewrite ?Ht0; [|done].
    intros [= <-]. simpl. by apply Hfits.
Qed.

Lemma PresentFrame_color_space_fits e d dev :
  color_space_fits d -> color_space_fits (PresentFrame e d dev).1.1.
Proof.
  intros Hfits t.
  pose proof (PresentFrame_frame e d dev) as ((_ & Hh & _) & Ht & _ & Hc & _).
  simpl in *. rewrite Ht, Hc, Hh. apply Hfits.
Qed.

Lemma update_frame_color_space_fits e d dev :
  half_float_is_distinct ->
  color_space_fits d ->
  color_space_fits (session_after (gs_duplicator_update_frame e d dev)).
Proof.
  intros Hdistinct Hfits.
  destruct (update_frame_cases e d dev)
    as [(r & tr & -> & _ & _) | [(_ & ->) | (_ & _ & ->)]];
    unfold session_after; simpl.
  - done.
  - by apply PresentFrame_color_space_fits.
  - pose proof (copy_texture_color_space_fits e d dev (env_frame e) Hdistinct Hfits)
      as Hcopy.
    destruct (copy_texture e d dev (env_frame e)) as [[d1 dev1] tr1]. simpl in *.
    assert (Hfits2 : color_space_fits (set_updated true d1)) by done.
    destruct (preview_attached (set_updated true d1)); [|done].
    by apply PresentFrame_color_space_fits.
Qed.

(** Every session the file produces has the color space of its texture. *)
Lemma reachable_color_space_fits d :
  half_float_is_distinct -> reachable d -> color_space_fits d.
Proof.
  intros Hdistinct. induction 1 as [e dev reg i d dev' reg' tr Hnew| | |].
  - intros t Ht.
    pose proof (gs_duplicator_new_effects e dev reg i) as (_ & _ & Hd).
    rewrite Hnew in Hd. simpl in Hd. destruct Hd as (_ & Hnone & _). congruence.
  - by apply update_frame_color_space_fits.
  - done.
  - done.
Qed.

(** C7. Whenever the texture cache processes a captured frame for a session
    this file has produced, the color space afterwards is
    [GS_CS_709_SCRGB] if the session is in HDR mode, [GS_CS_SRGB_16F] if the
    native frame format is [DXGI_FORMAT_R16G16B16A16_FLOAT] and the session is
    not HDR, and [GS_CS_SRGB] otherwise; the HDR mode itself is unchanged. The
    code assigns the field only when it allocates a texture, and a frame that
    fits the cached texture asks for the color space the session already has,
    because no other native format shares the generalized format of the
    half-float one. *)
Theorem color_space_follows_frame e d dev tex :
  half_float_is_distinct ->
  reachable d ->
  let out := copy_texture e d dev tex in
  hdr out.1.1 = hdr d
  /\ color_space out.1.1
     = if hdr d then GS_CS_709_SCRGB
       else if Format (GetDesc tex) =? DXGI_FORMAT_R16G16B16A16_FLOAT
            then GS_CS_SRGB_16F
            else GS_CS_SRGB.
Proof.
  intros Hdistinct Hreach out.
  pose proof (reachable_color_space_fits d Hdistinct Hreach) as Hfits.
  pose proof (color_space_recomputed_on_recreate e d dev tex) as [Hhdr Hcs].
  fold out in Hhdr, Hcs. split; [exact Hhdr|]. rewrite Hcs.
  destruct (needs_new_texture d (GetDesc tex) _) eqn:Hneed; [done|].
  unfold needs_new_texture in Hneed.
  destruct (texture d) as [t|] eqn:Ht; [|done].
  apply orb_false_iff in Hneed as [_ Hf]. apply negb_false_iff, Z.eqb_eq in Hf.
  rewrite (Hfits t Ht), Hf. by rewrite half_float_generalized.
Qed.

End ColorSpace.

(** The upstream format tables keep the half-float format apart. *)
Lemma sample_headers_half_float_distinct :
  half_float_is_distinct (H:=sample_headers).
Proof.
  intros f. unfold sample_headers; simpl.
  unfold DXGI_FORMAT_R16G16B16A16_FLOAT, DXGI_FORMAT_R8G8B8A8_UNORM,
    DXGI_FORMAT_B8G8R8A8_UNORM.
  destruct (Z.eqb_spec f 10) as [->|_]; [done|].
  destruct (Z.eqb_spec f 28) as [->|_]; [done|].
  destruct (Z.eqb_spec f 87) as [->|_]; done.
Qed.

(** A session that cached a half-float frame and now receives an 8-bit frame
    of the same size. *)
Lemma color_space_follows_frame_sample :
  let e1 := sample_update_env
              (sample_frame 1920 1080 DXGI_FORMAT_R16G16B16A16_FLOAT 7) (Some 31%nat) in
  let d1 := session_after
              (gs_duplicator_update_frame (H:=sample_headers) e1 sample_new_session
                 sample_device) in
  let tex := sample_frame 1920 1080 DXGI_FORMAT_B8G8R8A8_UNORM 8 in
  color_space d1 = GS_CS_SRGB_16F
  /\ color_space (copy_texture (H:=sample_headers) (sample_update_env tex (Some 32%nat))
                    d1 sample_device tex).1.1 = GS_CS_SRGB.
Proof.
  intros e1 d1 tex. split; [reflexivity|].
  assert (Hreach : reachable (H:=sample_headers) d1).
  { apply reach_update.
    eapply (reach_new (H:=sample_headers) (sample_start_env S_OK)
              (bump_next_obj (device sample_world)) (registered sample_world) 0).
    reflexivity. }
  exact (proj2 (color_space_follows_frame (H:=sample_headers)
                  (sample_update_env tex (Some 32%nat)) d1 sample_device tex
                  sample_headers_half_float_distinct Hreach)).
Defined.
